(** * get_access_token.py: the token fetcher, embedded and verified

    The script [Scripts/get_access_token.py] builds an MSAL public client,
    tries a silent token acquisition from the cache, falls back to the
    interactive browser flow, classifies the result, copies the token to
    the clipboard and prints export commands.

    The embedding keeps the script's shape: Python values are a small
    dynamic value type, every [print] and every call into [msal] or
    [pyperclip] is logged in order, and exceptions are threaded through a
    logging error monad.  The two libraries are the environment: a [world]
    answers each call by a value or by raising.

    What the embedding takes for granted: [print] always succeeds; a
    library call either returns, raises an [Exception] or is interrupted
    by the user ([KeyboardInterrupt]), and interruptions arrive during
    library calls only; an f-string is logged by its pieces, the text of
    an interpolated value being Python's business. *)

From Stdlib Require Import String Ascii List ZArith Bool Lia.
Import ListNotations.
Set Warnings "-register-all".
Local Open Scope string_scope.
Local Open Scope list_scope.

(** ** Python values *)

Module Py.

(** The values the script handles: [None], integers, strings, lists and
    dictionaries with string keys (kept as an association list, the first
    binding of a key being the live one). *)
Inductive pyval : Type :=
| VNone
| VInt (z : Z)
| VStr (s : string)
| VList (items : list pyval)
| VDict (entries : list (string * pyval)).

(** The exceptions derived from [Exception] that the script can meet: the
    ones raised by the interpreter on an ill-shaped value, and whatever a
    library raises ([LibraryError], with its message). *)
Inductive exc : Type :=
| TypeError (v : pyval)
| KeyError (k : pyval)
| IndexError (v : pyval)
| AttributeError (v : pyval) (attr : string)
| LibraryError (msg : string).

(** [BaseException]: [KeyboardInterrupt] and [SystemExit] are not
    [Exception]s, which is what the handlers of the script tell apart. *)
Inductive exn : Type :=
| KeyboardInterrupt
| SystemExit (code : Z)
| Exception (e : exc).

Inductive outcome (A : Type) : Type :=
| Returns (a : A)
| Raises (e : exn).
Arguments Returns {A} a.
Arguments Raises {A} e.

Fixpoint lookup (k : string) (d : list (string * pyval)) : option pyval :=
  match d with
  | [] => None
  | (k', v) :: d' => if String.eqb k k' then Some v else lookup k d'
  end.

(** [bool(v)], as [if v:] and [if not v:] use it. *)
Definition truthy (v : pyval) : bool :=
  match v with
  | VNone => false
  | VInt z => negb (Z.eqb z 0)
  | VStr s => negb (String.eqb s "")
  | VList l => match l with [] => false | _ :: _ => true end
  | VDict d => match d with [] => false | _ :: _ => true end
  end.

Definition is_str (k : string) (v : pyval) : bool :=
  match v with
  | VStr s => String.eqb k s
  | _ => false
  end.

(** [k in v] for a string [k]: key membership in a dictionary, element
    membership in a list, substring test in a string, [TypeError]
    elsewhere. *)
Definition contains (k : string) (v : pyval) : outcome bool :=
  match v with
  | VDict d => Returns (match lookup k d with Some _ => true | None => false end)
  | VList l => Returns (existsb (is_str k) l)
  | VStr s => Returns (match String.index 0 k s with Some _ => true | None => false end)
  | VNone | VInt _ => Raises (Exception (TypeError v))
  end.

(** [v[k]] for a string [k]. *)
Definition subscript (v : pyval) (k : string) : outcome pyval :=
  match v with
  | VDict d =>
      match lookup k d with
      | Some x => Returns x
      | None => Raises (Exception (KeyError (VStr k)))
      end
  | _ => Raises (Exception (TypeError v))
  end.

(** The number of bytes of the UTF-8 character that starts with [c]:
    strings are kept as their UTF-8 bytes. *)
Definition utf8_width (c : ascii) : nat :=
  let n := nat_of_ascii c in
  if (n <? 192)%nat then 1 else if (n <? 224)%nat then 2
  else if (n <? 240)%nat then 3 else 4.

(** [v[0]]: the first element of a list, the first character of a
    string. *)
Definition first (v : pyval) : outcome pyval :=
  match v with
  | VList (x :: _) => Returns x
  | VStr (String c s) => Returns (VStr (substring 0 (utf8_width c) (String c s)))
  | VList [] | VStr EmptyString => Raises (Exception (IndexError v))
  | VDict _ => Raises (Exception (KeyError (VInt 0)))
  | VNone | VInt _ => Raises (Exception (TypeError v))
  end.

(** [v.get(k, default)]: a method of dictionaries only. *)
Definition get (v : pyval) (k : string) (default : pyval) : outcome pyval :=
  match v with
  | VDict d =>
      match lookup k d with
      | Some x => Returns x
      | None => Returns default
      end
  | _ => Raises (Exception (AttributeError v "get"))
  end.

Arguments utf8_width : simpl never.

End Py.
Export Py.

(** ** Output and calls *)

(** One piece of a printed line: literal text, or a value or exception
    interpolated by an f-string. *)
Inductive fragment : Type :=
| Lit (s : string)
| Fmt (v : pyval)
| FmtExc (e : exc).

(** The calls into the two libraries. *)
Inductive call : Type :=
| NewPublicClientApplication (client_id authority : string)
| GetAccounts
| AcquireTokenSilent (scopes account : pyval)
| AcquireTokenInteractive (scopes : pyval) (prompt : string)
| ClipboardCopy (text : pyval).

(** How a library call can go wrong: the user interrupts it
    ([KeyboardInterrupt]) or it raises an [Exception]. *)
Inductive fault : Type :=
| Interrupt
| Failure (msg : string).

Inductive reply (A : Type) : Type :=
| Gives (a : A)
| Fails (f : fault).
Arguments Gives {A} a.
Arguments Fails {A} f.

(** The log of a run: printed lines and library calls, each call with the
    fault it ended in, if any. *)
Inductive event : Type :=
| Print (line : list fragment)
| Call (c : call) (f : option fault).

(** The object [msal.PublicClientApplication(...)] returns, by its three
    methods the script uses. *)
Record PublicClientApplication : Type := {
  get_accounts : reply pyval;
  acquire_token_silent : pyval -> pyval -> reply pyval;
  acquire_token_interactive : pyval -> string -> reply pyval
}.

(** The environment of a run: the [msal] constructor and
    [pyperclip.copy]. *)
Record world : Type := {
  msal_PublicClientApplication : string -> string -> reply PublicClientApplication;
  pyperclip_copy : pyval -> reply unit
}.

(** ** The monad of the script: a log and an exception *)

Definition M (A : Type) : Type := (outcome A * list event)%type.

Definition ret {A} (a : A) : M A := (Returns a, []).

Definition bind {A B} (m : M A) (k : A -> M B) : M B :=
  match m with
  | (Returns a, l) => match k a with (r, l') => (r, l ++ l') end
  | (Raises e, l) => (Raises e, l)
  end.

Notation "x <- m ;; k" := (bind m (fun x => k))
  (at level 61, m at next level, right associativity).
Notation "m ;; k" := (bind m (fun _ => k))
  (at level 61, right associativity).

Definition lift {A} (o : outcome A) : M A := (o, []).

Definition print (line : list fragment) : M unit := (Returns tt, [Print line]).

Definition exn_of_fault (f : fault) : exn :=
  match f with
  | Interrupt => KeyboardInterrupt
  | Failure msg => Exception (LibraryError msg)
  end.

Definition fault_of {A} (r : reply A) : option fault :=
  match r with
  | Gives _ => None
  | Fails f => Some f
  end.

(** A library call: logged with the fault it ends in, if any; a fault is
    raised in the script. *)
Definition invoke {A} (c : call) (r : reply A) : M A :=
  match r with
  | Gives a => (Returns a, [Call c None])
  | Fails f => (Raises (exn_of_fault f), [Call c (Some f)])
  end.

(** [sys.exit(code)] raises [SystemExit]. *)
Definition sys_exit {A} (code : Z) : M A := (Raises (SystemExit code), []).

(** [try: m  except ...: h]: the handler [h] picks the exceptions it
    catches. *)
Definition try_except {A} (m : M A) (h : exn -> option (M A)) : M A :=
  match m with
  | (Returns a, l) => (Returns a, l)
  | (Raises e, l) =>
      match h e with
      | Some m' => match m' with (r, l') => (r, l ++ l') end
      | None => (Raises e, l)
      end
  end.

(** ** The script *)

Definition nl : string := String (ascii_of_nat 10) EmptyString.
Definition dquote : string := String (ascii_of_nat 34) EmptyString.

Definition CLIENT_ID : string := "14d82eec-204b-4c2f-b7e8-296a70dab67e".
Definition TENANT_ID : string := "common".
Definition SCOPES : pyval :=
  VList [VStr "https://graph.microsoft.com/EntitlementManagement.ReadWrite.All"].

Definition authority : string := "https://login.microsoftonline.com/" ++ TENANT_ID.
Definition prompt : string := "select_account".

#[local] Arguments CLIENT_ID : simpl never.
#[local] Arguments authority : simpl never.
#[local] Arguments prompt : simpl never.

(** Lines 21-47 of [get_token]: the acquisition, which leaves [result]. *)
Definition acquire (w : world) : M pyval :=
  print [Lit "🔐 Authenticating to Microsoft Graph..."] ;;
  scope <- lift (first SCOPES) ;;
  print [Lit "   Scope: "; Fmt scope] ;;
  app <- invoke (NewPublicClientApplication CLIENT_ID authority)
                (msal_PublicClientApplication w CLIENT_ID authority) ;;
  accounts <- invoke GetAccounts (get_accounts app) ;;
  result <-
    (if truthy accounts then
       account <- lift (first accounts) ;;
       username <- lift (subscript account "username") ;;
       print [Lit (nl ++ "✅ Found cached account: "); Fmt username] ;;
       print [Lit "   Attempting silent authentication..."] ;;
       account <- lift (first accounts) ;;
       invoke (AcquireTokenSilent SCOPES account)
              (acquire_token_silent app SCOPES account)
     else ret VNone) ;;
  if negb (truthy result) then
    print [Lit (nl ++ "🌐 Opening browser for interactive authentication...")] ;;
    print [Lit "   Please sign in and grant consent when prompted."] ;;
    invoke (AcquireTokenInteractive SCOPES prompt)
           (acquire_token_interactive app SCOPES prompt)
  else ret result.

(** Lines 64-71: the export commands, one per shell family, and the
    closing line. *)
Inductive shell : Type := PowerShell | BashZsh.

Definition export_prefix (sh : shell) : string :=
  match sh with
  | PowerShell => "   $env:GRAPH_TOKEN = " ++ dquote
  | BashZsh => "   export GRAPH_TOKEN=" ++ dquote
  end.

Definition export_statement (sh : shell) (token : pyval) : list fragment :=
  [Lit (export_prefix sh); Fmt token; Lit dquote].

Definition print_export_commands (token : pyval) : M unit :=
  print [Lit (nl ++ "💡 To set environment variable:")] ;;
  print [Lit "   PowerShell:"] ;;
  print (export_statement PowerShell token) ;;
  print [Lit (nl ++ "   Bash/Zsh:")] ;;
  print (export_statement BashZsh token) ;;
  print [Lit (nl ++ "🚀 Deploy your catalog!!")].

(** Lines 57-62: the clipboard copy and its handler, which catches
    [Exception] only. *)
Definition copy_to_clipboard (w : world) (token : pyval) : M unit :=
  try_except
    (invoke (ClipboardCopy token) (pyperclip_copy w token) ;;
     print [Lit (nl ++ "✅ Token copied to clipboard!")])
    (fun e =>
       match e with
       | Exception e =>
           Some (print [Lit (nl ++ "⚠️  Could not copy to clipboard: "); FmtExc e] ;;
                 print [Lit (nl ++ "📋 Your token:" ++ nl); Fmt token; Lit nl])
       | _ => None
       end).

(** Lines 49-78 of [get_token]: the classification of [result]. *)
Definition report (w : world) (result : pyval) : M pyval :=
  has_token <- lift (contains "access_token" result) ;;
  if has_token : bool then
    token <- lift (subscript result "access_token") ;;
    print [Lit (nl ++ "✅ Authentication successful!")] ;;
    account <- lift (get result "account" (VDict [])) ;;
    username <- lift (get account "username" (VStr "Unknown")) ;;
    print [Lit "   Account: "; Fmt username] ;;
    expires_in <- lift (get result "expires_in" (VStr "Unknown")) ;;
    print [Lit "   Token expires in: "; Fmt expires_in; Lit " seconds"] ;;
    copy_to_clipboard w token ;;
    print_export_commands token ;;
    ret token
  else
    print [Lit (nl ++ "❌ Authentication failed!")] ;;
    error <- lift (get result "error" (VStr "Unknown error")) ;;
    print [Lit "   Error: "; Fmt error] ;;
    description <- lift (get result "error_description" (VStr "No description")) ;;
    print [Lit "   Description: "; Fmt description] ;;
    sys_exit 1.

Definition get_token (w : world) : M pyval :=
  result <- acquire w ;;
  report w result.

(** The [__main__] block: interruption and [Exception] are reported and
    turned into [sys.exit(1)]; [SystemExit] passes through. *)
Definition main (w : world) : M unit :=
  try_except
    (get_token w ;; ret tt)
    (fun e =>
       match e with
       | KeyboardInterrupt =>
           Some (print [Lit (nl ++ nl ++ "❌ Cancelled by user")] ;; sys_exit 1)
       | Exception e =>
           Some (print [Lit (nl ++ "❌ Error: "); FmtExc e] ;; sys_exit 1)
       | SystemExit _ => None
       end).

(** The exit status the interpreter gives the process: 0 when the script
    runs to its end, the code of a [SystemExit], 1 for an [Exception] that
    nothing caught, and death by SIGINT (130 for the shell) for a
    [KeyboardInterrupt] that nothing caught. *)
Definition exit_status {A} (o : outcome A) : Z :=
  match o with
  | Returns _ => 0
  | Raises (SystemExit code) => code
  | Raises (Exception _) => 1
  | Raises KeyboardInterrupt => 130
  end%Z.

Definition status (w : world) : Z := exit_status (fst (main w)).
Definition output (w : world) : list event := snd (main w).

(** ** Reading a log *)

Definition is_silent (e : event) : bool :=
  match e with
  | Call (AcquireTokenSilent _ _) _ => true
  | _ => false
  end.

Definition is_interactive (e : event) : bool :=
  match e with
  | Call (AcquireTokenInteractive _ _) _ => true
  | _ => false
  end.

(** The acquisition attempts of a log, in order. *)
Definition acquisitions (l : list event) : list event :=
  filter (fun e => is_silent e || is_interactive e) l.

(** ** Reading a world: what the script meets on its way *)

Definition the_app (w : world) : option PublicClientApplication :=
  match msal_PublicClientApplication w CLIENT_ID authority with
  | Gives app => Some app
  | Fails _ => None
  end.

(** What [app.get_accounts()] returns, when the run gets there. *)
Definition cached_accounts (w : world) : option pyval :=
  match the_app w with
  | Some app =>
      match get_accounts app with
      | Gives accounts => Some accounts
      | Fails _ => None
      end
  | None => None
  end.

(** The account the silent attempt is made with: [accounts[0]], once its
    username has been printed. *)
Definition silent_account (w : world) : option pyval :=
  match cached_accounts w with
  | Some accounts =>
      if truthy accounts then
        match first accounts with
        | Returns account =>
            match subscript account "username" with
            | Returns _ => Some account
            | Raises _ => None
            end
        | Raises _ => None
        end
      else None
  | None => None
  end.

(** The library's answer to the silent attempt, when one is made. *)
Definition silent_reply (w : world) : option (reply pyval) :=
  match the_app w, silent_account w with
  | Some app, Some account => Some (acquire_token_silent app SCOPES account)
  | _, _ => None
  end.

(** The library's answer to the interactive attempt, were one made. *)
Definition interactive_reply (w : world) : option (reply pyval) :=
  match the_app w with
  | Some app => Some (acquire_token_interactive app SCOPES prompt)
  | None => None
  end.

Definition falls_back (w : world) : bool :=
  match cached_accounts w with
  | Some accounts =>
      if truthy accounts then
        match silent_reply w with
        | Some (Gives result) => negb (truthy result)
        | _ => false
        end
      else true
  | None => false
  end.

(** ** Notions used by the statements *)

(** What the [__main__] block makes of each way [get_token] can end. *)
Definition cancelled : event := Print [Lit (nl ++ nl ++ "❌ Cancelled by user")].
Definition crashed (e : exc) : event := Print [Lit (nl ++ "❌ Error: "); FmtExc e].

(** A call that raised, and the logs in which such a call, if there is
    one, is the last event. *)
Definition is_fault (e : event) : bool :=
  match e with
  | Call _ (Some _) => true
  | _ => false
  end.

Fixpoint fault_is_last (l : list event) : bool :=
  match l with
  | [] => true
  | e :: l' =>
      if is_fault e then match l' with [] => true | _ :: _ => false end
      else fault_is_last l'
  end.

(** [d.get(k, default)] once [d.get(k)] has been looked up. *)
Definition or_default (o : option pyval) (default : pyval) : pyval :=
  match o with
  | Some v => v
  | None => default
  end.

(** The three lines of the failure branch. *)
Definition failure_report (d : list (string * pyval)) : list event :=
  [ Print [Lit (nl ++ "❌ Authentication failed!")];
    Print [Lit "   Error: "; Fmt (or_default (lookup "error" d) (VStr "Unknown error"))];
    Print [Lit "   Description: ";
           Fmt (or_default (lookup "error_description" d) (VStr "No description"))] ].

(** The ["account"] entry of a result is usable when it is absent or a
    dictionary: [.get] is then defined on it. *)
Definition account_is_dict (d : list (string * pyval)) : bool :=
  match lookup "account" d with
  | None | Some (VDict _) => true
  | Some _ => false
  end.

(** Line 52. *)
Definition success_banner : event := Print [Lit (nl ++ "✅ Authentication successful!")].

(** The browser login was launched in this log. *)
Definition launches_interactive (l : list event) : bool := existsb is_interactive l.




(** The four shapes the attempts of a run can take. *)
Inductive attempts_shape : list event -> Prop :=
| no_attempt : attempts_shape []
| silent_only (account : pyval) (f : option fault) :
    attempts_shape [Call (AcquireTokenSilent SCOPES account) f]
| interactive_only (f : option fault) :
    attempts_shape [Call (AcquireTokenInteractive SCOPES prompt) f]
| silent_then_interactive (account : pyval) (f : option fault) :
    attempts_shape [Call (AcquireTokenSilent SCOPES account) None;
                    Call (AcquireTokenInteractive SCOPES prompt) f].

(** The literal part of line 35. *)
Definition found_cached_account : string := nl ++ "✅ Found cached account: ".

(** An event respects the credential request when a constructor call
    carries the client id and the authority of the script and an
    acquisition call carries its scopes. *)
Definition uses_fixed_request (e : event) : Prop :=
  match e with
  | Call (NewPublicClientApplication client_id auth) _ =>
      client_id = CLIENT_ID /\ auth = authority
  | Call (AcquireTokenSilent scopes _) _ => scopes = SCOPES
  | Call (AcquireTokenInteractive scopes _) _ => scopes = SCOPES
  | _ => True
  end.

(** [result.get('account', {}).get('username', 'Unknown')] when the
    account entry is absent or a dictionary. *)
Definition account_username (d : list (string * pyval)) : pyval :=
  match lookup "account" d with
  | Some (VDict account) => or_default (lookup "username" account) (VStr "Unknown")
  | _ => VStr "Unknown"
  end.

(** Lines 52-54. *)
Definition success_header (d : list (string * pyval)) : list event :=
  [ success_banner;
    Print [Lit "   Account: "; Fmt (account_username d)];
    Print [Lit "   Token expires in: ";
           Fmt (or_default (lookup "expires_in" d) (VStr "Unknown"));
           Lit " seconds"] ].

(** What the clipboard step logs when the copy works, and when it raises
    an [Exception]. *)
Definition copied (token : pyval) : list event :=
  [ Call (ClipboardCopy token) None;
    Print [Lit (nl ++ "✅ Token copied to clipboard!")] ].

Definition not_copied (token : pyval) (msg : string) : list event :=
  [ Call (ClipboardCopy token) (Some (Failure msg));
    Print [Lit (nl ++ "⚠️  Could not copy to clipboard: "); FmtExc (LibraryError msg)];
    Print [Lit (nl ++ "📋 Your token:" ++ nl); Fmt token; Lit nl] ].

(** The six lines of lines 65-71. *)
Definition export_commands (token : pyval) : list event :=
  snd (print_export_commands token).

(** The export statements of a log: the lines that open with the export
    prefix of a shell family. *)
Definition is_export (e : event) : bool :=
  match e with
  | Print (Lit s :: _) =>
      String.eqb s (export_prefix PowerShell) || String.eqb s (export_prefix BashZsh)
  | _ => false
  end.

Definition export_lines (l : list event) : list event := filter is_export l.

(** The text of a line whose interpolated values are strings ([str(s)] is
    [s]); lines interpolating other values are left unrendered. *)
Fixpoint render (line : list fragment) : option string :=
  match line with
  | [] => Some ""
  | Lit s :: rest => option_map (append s) (render rest)
  | Fmt (VStr s) :: rest => option_map (append s) (render rest)
  | _ :: _ => None
  end.

(** Replacing the clipboard of a world. *)
Definition with_clipboard (w : world) (copy : pyval -> reply unit) : world :=
  {| msal_PublicClientApplication := msal_PublicClientApplication w;
     pyperclip_copy := copy |}.

(** ** Sample worlds *)

Definition alice : pyval := VDict [("username", VStr "alice@contoso.com")].
Definition bob : pyval := VDict [("username", VStr "bob@contoso.com")].

Definition granted : list (string * pyval) :=
  [("access_token", VStr "eyJ0eXAi"); ("expires_in", VInt 3599)].

Definition denied : list (string * pyval) :=
  [("error", VStr "access_denied");
   ("error_description", VStr "The user declined to consent.")].

Definition app_of (accounts : pyval) (silent interactive : reply pyval) :
  PublicClientApplication :=
  {| get_accounts := Gives accounts;
     acquire_token_silent := fun _ _ => silent;
     acquire_token_interactive := fun _ _ => interactive |}.

Definition world_of (accounts : pyval) (silent interactive : reply pyval)
  (copy : reply unit) : world :=
  {| msal_PublicClientApplication := fun _ _ => Gives (app_of accounts silent interactive);
     pyperclip_copy := fun _ => copy |}.

(** Two cached accounts, the silent attempt answers with a token. *)
Definition cached_world : world :=
  world_of (VList [alice; bob]) (Gives (VDict granted)) (Fails (Failure "unused")) (Gives tt).

(** An empty cache, the browser login answers with a token, no clipboard. *)
Definition fresh_world : world :=
  world_of (VList []) (Gives VNone) (Gives (VDict granted))
    (Fails (Failure "no clipboard mechanism")).

(** An empty cache, the browser login is refused. *)
Definition refused_world : world :=
  world_of (VList []) (Gives VNone) (Gives (VDict denied)) (Gives tt).

(** A token is granted, and the user interrupts the clipboard copy. *)
Definition interrupted_copy_world : world :=
  world_of (VList []) (Gives VNone) (Gives (VDict granted)) (Fails Interrupt).

(** A result that carries both a token and an error. *)
Definition granted_with_error : list (string * pyval) :=
  [("access_token", VStr "eyJ0eXAi"); ("error", VStr "access_denied")].

Definition ambiguous_world : world :=
  world_of (VList []) (Gives VNone) (Gives (VDict granted_with_error)) (Gives tt).

(** A result with a description of the error and no ["error"] entry. *)
Definition described_only : list (string * pyval) :=
  [("error_description", VStr "AADSTS50076: multi-factor authentication required")].

Definition described_world : world :=
  world_of (VList []) (Gives VNone) (Gives (VDict described_only)) (Gives tt).

(** A result with no entry at all about an error. *)
Definition silent_about_error : list (string * pyval) := [("token_type", VStr "Bearer")].

Definition mute_world : world :=
  world_of (VList []) (Gives VNone) (Gives (VDict silent_about_error)) (Gives tt).

(** The browser login is interrupted by the user. *)
Definition interrupted_login_world : world :=
  world_of (VList []) (Gives VNone) (Fails Interrupt) (Gives tt).

(** A cached account whose silent attempt answers with an error
    dictionary: a truthy result without a token. *)
Definition stale_world : world :=
  world_of (VList [alice]) (Gives (VDict denied)) (Gives (VDict granted)) (Gives tt).

(** A cached account whose silent attempt raises: the network is down. *)
Definition offline_world : world :=
  world_of (VList [alice]) (Fails (Failure "connection refused"))
    (Gives (VDict granted)) (Gives tt).

(** ** Notions for the order of calls and the lines of the report *)

(** The library calls of a log, in order. *)
Fixpoint calls (l : list event) : list call :=
  match l with
  | [] => []
  | Call c _ :: l' => c :: calls l'
  | Print _ :: l' => calls l'
  end.

(** The place of a call in the script. *)
Definition rank (c : call) : nat :=
  match c with
  | NewPublicClientApplication _ _ => 0
  | GetAccounts => 1
  | AcquireTokenSilent _ _ => 2
  | AcquireTokenInteractive _ _ => 3
  | ClipboardCopy _ => 4
  end.

Fixpoint ascending (l : list nat) : bool :=
  match l with
  | [] => true
  | n :: l' =>
      match l' with
      | [] => true
      | m :: _ => (n <? m)%nat && ascending l'
      end
  end.

(** Once a call has raised, the log holds printed lines only. *)
Fixpoint quiet_after_fault (l : list event) : bool :=
  match l with
  | [] => true
  | e :: l' =>
      if is_fault e then match calls l' with [] => true | _ :: _ => false end
      else quiet_after_fault l'
  end.

(** Line 62, and lines 53 and 54. *)
Definition plaintext_token (token : pyval) : event :=
  Print [Lit (nl ++ "📋 Your token:" ++ nl); Fmt token; Lit nl].

Definition account_line (username : pyval) : event :=
  Print [Lit "   Account: "; Fmt username].

Definition expiry_line (expires_in : pyval) : event :=
  Print [Lit "   Token expires in: "; Fmt expires_in; Lit " seconds"].

(** A cached account without a username. *)
Definition nameless_world : world :=
  world_of (VList [VDict [("home_account_id", VStr "0000")]])
    (Gives (VDict granted)) (Gives (VDict granted)) (Gives tt).

(** A granted token whose ["account"] entry is a string. *)
Definition granted_for_alice : list (string * pyval) :=
  [("access_token", VStr "eyJ0eXAi"); ("account", VStr "alice@contoso.com")].

Definition odd_account_world : world :=
  world_of (VList []) (Gives VNone) (Gives (VDict granted_for_alice)) (Gives tt).

(** The browser login answers [None]. *)
Definition null_result_world : world :=
  world_of (VList []) (Gives VNone) (Gives VNone) (Gives tt).

(** Line 75. *)
Definition failure_banner : event := Print [Lit (nl ++ "❌ Authentication failed!")].


(** A granted token, the clipboard being a parameter. *)
Definition granted_world (copy : reply unit) : world :=
  world_of (VList []) (Gives VNone) (Gives (VDict granted)) copy.

(** ** Proof support *)

(** Case analysis on the innermost scrutinee the goal or a hypothesis is
    stuck on: a reply of the world or the shape of a value. *)
Ltac break_match :=
  match goal with
  | |- context [match ?x with _ => _ end] =>
      lazymatch x with
      | context [match _ with _ => _ end] => fail
      | _ => destruct x eqn:?
      end
  | H : context [match ?x with _ => _ end] |- _ =>
      lazymatch x with
      | context [match _ with _ => _ end] => fail
      | _ => destruct x eqn:?
      end
  end.

(** Run the script symbolically, one case per way the world can answer. *)
Ltac run_cases :=
  repeat (cbn in *; try reflexivity; try congruence; break_match);
  cbn in *; try reflexivity; try congruence.

(** [not v] in a hypothesis: decide [v]. *)
Ltac flip_negb :=
  repeat match goal with
         | H : negb ?b = _ |- _ => destruct b eqn:?; cbn in H
         end.

(** Equal results carry equal values. *)
Ltac same_values :=
  repeat match goal with
         | H : Returns _ = Returns _ |- _ => injection H as H
         | H : Gives _ = Gives _ |- _ => injection H as H
         | H : Some _ = Some _ |- _ => injection H as H
         end;
  subst.

(** Membership in a computed log: one disjunct per event. *)
Ltac which_event :=
  repeat match goal with
         | H : _ \/ _ |- _ => destruct H as [H | H]
         | H : False |- _ => destruct H
         | H : Print _ = Call _ _ |- _ => discriminate H
         | H : Call _ _ = Print _ |- _ => discriminate H
         | H : Call _ _ = Call _ _ |- _ => injection H as ? ?; try discriminate
         | H : Print _ = Print _ |- _ => injection H as ?; try discriminate
         | H : _ = ?e |- _ => is_var e; subst e
         end;
  subst; cbn in *.

(** A fault is an interruption or a failure. *)
Ltac which_fault :=
  repeat match goal with
         | f : fault |- _ => destruct f
         end.

Ltac settle :=
  run_cases; flip_negb; cbn in *; same_values; which_event;
  try congruence; which_fault; cbn in *;
  try congruence; try (intuition congruence);
  try (left; split; congruence); try (right; split; congruence).

(** Lay the script open on a world given by its two entry points. *)
Ltac open_world w :=
  let ctor := fresh "ctor" in
  let copy := fresh "copy" in
  destruct w as [ctor copy];
  unfold falls_back, interactive_reply, silent_reply, silent_account,
    cached_accounts, the_app in *;
  unfold status, output, main, get_token, report, acquire, copy_to_clipboard,
    print_export_commands in *;
  unfold bind, try_except, invoke, lift, ret, print, sys_exit in *;
  cbn [msal_PublicClientApplication pyperclip_copy] in *.

(** Lay the operations on values open, for proofs by the shape of values. *)
Ltac open_values := unfold first, subscript, get, contains in *.

(** ** Sample runs *)

Example cached_run :
  fst (get_token cached_world) = Returns (VStr "eyJ0eXAi") /\
  acquisitions (output cached_world) = [Call (AcquireTokenSilent SCOPES alice) None] /\
  status cached_world = 0%Z.
Proof. repeat split. Qed.

Example fresh_run :
  fst (get_token fresh_world) = Returns (VStr "eyJ0eXAi") /\
  acquisitions (output fresh_world) =
    [Call (AcquireTokenInteractive SCOPES "select_account") None] /\
  status fresh_world = 0%Z.
Proof. repeat split. Qed.

Example refused_run :
  fst (get_token refused_world) = Raises (SystemExit 1) /\
  status refused_world = 1%Z /\
  skipn 7 (output refused_world) = failure_report denied.
Proof. repeat split. Qed.

Example interrupted_login_run :
  status interrupted_login_world = 1%Z /\
  output interrupted_login_world =
    [ Print [Lit "🔐 Authenticating to Microsoft Graph..."];
      Print [Lit "   Scope: ";
             Fmt (VStr "https://graph.microsoft.com/EntitlementManagement.ReadWrite.All")];
      Call (NewPublicClientApplication CLIENT_ID authority) None;
      Call GetAccounts None;
      Print [Lit (nl ++ "🌐 Opening browser for interactive authentication...")];
      Print [Lit "   Please sign in and grant consent when prompted."];
      Call (AcquireTokenInteractive SCOPES "select_account") (Some Interrupt);
      cancelled ].
Proof. split; reflexivity. Qed.

(** A truthy silent result is classified as it is, with or without a
    token; a silent attempt that raises ends the run. *)
Example stale_run :
  launches_interactive (output stale_world) = false /\
  status stale_world = 1%Z.
Proof. split; reflexivity. Qed.

Example offline_run :
  launches_interactive (output offline_world) = false /\
  status offline_world = 1%Z /\
  skipn 7 (output offline_world) = [crashed (LibraryError "connection refused")].
Proof. repeat split. Qed.

(** *** The monad *)

Lemma fst_bind {A B} (m : M A) (k : A -> M B) :
  fst (bind m k) =
  match fst m with
  | Returns a => fst (k a)
  | Raises e => Raises e
  end.
Proof. destruct m as [[a | e] l]; cbn; [destruct (k a) |]; reflexivity. Qed.

Lemma snd_bind {A B} (m : M A) (k : A -> M B) :
  snd (bind m k) =
  snd m ++ match fst m with
           | Returns a => snd (k a)
           | Raises _ => []
           end.
Proof.
  destruct m as [[a | e] l]; cbn; [destruct (k a) | rewrite app_nil_r]; reflexivity.
Qed.

Lemma get_token_returns (w : world) (result : pyval) :
  fst (acquire w) = Returns result ->
  get_token w = (fst (report w result), snd (acquire w) ++ snd (report w result)).
Proof.
  intros H. unfold get_token, bind. destruct (acquire w) as [o l].
  cbn [fst snd] in *. subst o. destruct (report w result); reflexivity.
Qed.

Lemma get_token_raises (w : world) (e : exn) :
  fst (acquire w) = Raises e ->
  get_token w = (Raises e, snd (acquire w)).
Proof.
  intros H. unfold get_token, bind. destruct (acquire w) as [o l].
  cbn [fst snd] in *. subst o. reflexivity.
Qed.

Lemma main_cases (w : world) :
  main w =
  match fst (get_token w) with
  | Returns _ => (Returns tt, snd (get_token w))
  | Raises KeyboardInterrupt => (Raises (SystemExit 1), snd (get_token w) ++ [cancelled])
  | Raises (Exception e) => (Raises (SystemExit 1), snd (get_token w) ++ [crashed e])
  | Raises (SystemExit code) => (Raises (SystemExit code), snd (get_token w))
  end.
Proof.
  unfold main, try_except, bind.
  destruct (get_token w) as [[token | [ | code | e]] l]; cbn [fst snd];
    try reflexivity; cbn; rewrite ?app_nil_r; reflexivity.
Qed.

(** *** The acquisition *)

Lemma acquisitions_app (l1 l2 : list event) :
  acquisitions (l1 ++ l2) = acquisitions l1 ++ acquisitions l2.
Proof. apply filter_app. Qed.

Lemma acquisitions_acquire (w : world) :
  acquisitions (snd (acquire w)) =
  match silent_account w, silent_reply w with
  | Some account, Some r => [Call (AcquireTokenSilent SCOPES account) (fault_of r)]
  | _, _ => []
  end ++
  match falls_back w, interactive_reply w with
  | true, Some r => [Call (AcquireTokenInteractive SCOPES prompt) (fault_of r)]
  | _, _ => []
  end.
Proof. open_world w. run_cases. Qed.

(** The result the acquisition leaves is the answer to the silent attempt
    when that is truthy, and the answer to the interactive one otherwise. *)
Lemma acquire_result (w : world) (result : pyval) :
  fst (acquire w) = Returns result <->
  (silent_reply w = Some (Gives result) /\ truthy result = true) \/
  (falls_back w = true /\ interactive_reply w = Some (Gives result)).
Proof.
  open_world w.
  (split; [intros H | intros [[H1 H2] | [H1 H2]]]; settle).
Qed.

Lemma acquire_fault_free (w : world) (result : pyval) :
  fst (acquire w) = Returns result -> existsb is_fault (snd (acquire w)) = false.
Proof. open_world w. intros H. settle. Qed.

Lemma fault_is_last_split (l pre post : list event) (e : event) :
  fault_is_last l = true -> l = pre ++ e :: post -> is_fault e = true ->
  post = [].
Proof.
  intros L E F. subst l. induction pre as [|x pre IH]; cbn in L.
  - rewrite F in L. now destruct post.
  - destruct (is_fault x); [now destruct pre | auto].
Qed.

Lemma acquire_fault_is_last (w : world) : fault_is_last (snd (acquire w)) = true.
Proof. open_world w. settle. Qed.

Lemma acquire_interrupted (w : world) (c : call) :
  In (Call c (Some Interrupt)) (snd (acquire w)) ->
  fst (acquire w) = Raises KeyboardInterrupt.
Proof. open_world w. intros H. settle. Qed.

Lemma acquire_failed (w : world) (c : call) (msg : string) :
  In (Call c (Some (Failure msg))) (snd (acquire w)) ->
  fst (acquire w) = Raises (Exception (LibraryError msg)).
Proof. open_world w. intros H. settle. Qed.

Lemma acquire_never_exits (w : world) (code : Z) :
  fst (acquire w) <> Raises (SystemExit code).
Proof. open_world w. open_values. intros H. settle. Qed.

(** *** The classification *)

Lemma report_failure (w : world) (d : list (string * pyval)) :
  lookup "access_token" d = None ->
  report w (VDict d) = (Raises (SystemExit 1), failure_report d).
Proof.
  intros H. unfold report, failure_report, bind, lift, print, sys_exit, contains, get.
  rewrite H. cbn.
  destruct (lookup "error" d), (lookup "error_description" d); reflexivity.
Qed.

Lemma report_success (w : world) (d : list (string * pyval)) (token : pyval) :
  lookup "access_token" d = Some token ->
  account_is_dict d = true ->
  pyperclip_copy w token <> Fails Interrupt ->
  fst (report w (VDict d)) = Returns token.
Proof.
  destruct w as [ctor copy]. unfold account_is_dict. cbn [pyperclip_copy].
  intros H A C.
  unfold report, copy_to_clipboard, print_export_commands,
    bind, try_except, invoke, lift, ret, print, sys_exit.
  settle.
Qed.

Lemma report_returns_token (w : world) (result token : pyval) :
  fst (report w result) = Returns token ->
  exists d, result = VDict d /\ lookup "access_token" d = Some token.
Proof.
  open_world w. open_values. intros H.
  (run_cases; eexists; (split; [reflexivity | congruence])).
Qed.

Lemma report_exit_code (w : world) (result : pyval) (code : Z) :
  fst (report w result) = Raises (SystemExit code) ->
  code = 1%Z /\ contains "access_token" result = Returns false.
Proof.
  open_world w. open_values. intros H.
  (run_cases; which_fault; cbn in *; try congruence; split; congruence).
Qed.

Lemma report_without_token (w : world) (result : pyval) :
  contains "access_token" result <> Returns true ->
  fst (report w result) = Raises (SystemExit 1) \/
  exists e, fst (report w result) = Raises (Exception e).
Proof.
  open_world w. open_values. intros H.
  (run_cases; which_fault; cbn in *; try congruence;
        try (left; reflexivity); right; eexists; reflexivity).
Qed.

Lemma acquisitions_report (w : world) (result : pyval) :
  acquisitions (snd (report w result)) = [].
Proof. open_world w. settle. Qed.

Lemma report_interrupted (w : world) (result : pyval) (c : call) :
  In (Call c (Some Interrupt)) (snd (report w result)) ->
  fst (report w result) = Raises KeyboardInterrupt.
Proof. open_world w. intros H. settle. Qed.

Lemma report_call_is_clipboard (w : world) (result : pyval) (c : call) (f : option fault) :
  In (Call c f) (snd (report w result)) ->
  exists token, c = ClipboardCopy token /\ subscript result "access_token" = Returns token.
Proof.
  open_world w. open_values. intros H.
  (run_cases; which_event; eexists; (split; reflexivity)).
Qed.

(** *** The whole run *)

(** The log of a run is the log of the acquisition followed by lines and
    calls that acquire nothing: the classification and the last word of
    the [__main__] block. *)
Lemma output_after_acquire (w : world) :
  exists rest, output w = snd (acquire w) ++ rest /\ acquisitions rest = [].
Proof.
  unfold output. rewrite main_cases.
  destruct (fst (acquire w)) as [result | e] eqn:A.
  - rewrite (get_token_returns _ _ A). cbn [fst snd].
    pose proof (acquisitions_report w result) as R.
    destruct (fst (report w result)) as [token | [ | code | x]]; cbn [snd];
      rewrite <- ?app_assoc; eexists; (split; [reflexivity |]);
      rewrite ?acquisitions_app, R; reflexivity.
  - rewrite (get_token_raises _ _ A). cbn [fst snd].
    destruct e as [ | code | x];
      [exists [cancelled] | exists [] | exists [crashed x]];
      rewrite ?app_nil_r; split; reflexivity.
Qed.

Lemma acquisitions_output (w : world) :
  acquisitions (output w) = acquisitions (snd (acquire w)).
Proof.
  destruct (output_after_acquire w) as (rest & E & R).
  now rewrite E, acquisitions_app, R, app_nil_r.
Qed.


(** Where an event of the log comes from. *)
Lemma output_in (w : world) (e : event) :
  In e (output w) ->
  In e (snd (acquire w)) \/
  (exists result, fst (acquire w) = Returns result /\ In e (snd (report w result))) \/
  e = cancelled \/ exists x, e = crashed x.
Proof.
  unfold output. rewrite main_cases.
  destruct (fst (acquire w)) as [result | x] eqn:A.
  - rewrite (get_token_returns _ _ A). cbn [fst snd].
    destruct (fst (report w result)) as [token | [ | code | x]]; cbn [snd];
      rewrite ?in_app_iff; cbn [In]; intros H;
      repeat match goal with H : _ \/ _ |- _ => destruct H as [H | H] end;
      eauto; contradiction.
  - rewrite (get_token_raises _ _ A). cbn [fst snd].
    destruct x as [ | code | x]; cbn [snd]; rewrite ?in_app_iff; cbn;
      intuition eauto.
Qed.

Lemma status_cases (w : world) :
  status w =
  match fst (get_token w) with
  | Returns _ => 0
  | Raises (SystemExit code) => code
  | Raises _ => 1
  end%Z.
Proof.
  unfold status. rewrite main_cases.
  destruct (fst (get_token w)) as [token | [ | code | e]]; reflexivity.
Qed.

Lemma get_token_exit_code (w : world) (code : Z) :
  fst (get_token w) = Raises (SystemExit code) ->
  code = 1%Z /\
  exists result, fst (acquire w) = Returns result /\
                 contains "access_token" result = Returns false.
Proof.
  destruct (fst (acquire w)) as [result | e] eqn:A.
  - rewrite (get_token_returns _ _ A). cbn [fst]. intros H.
    apply report_exit_code in H. destruct H. eauto.
  - rewrite (get_token_raises _ _ A). cbn [fst]. intros H.
    exfalso. apply (acquire_never_exits w code). congruence.
Qed.

(** *** The attempts of a run *)

Lemma acquire_attempts_shape (w : world) :
  attempts_shape (acquisitions (snd (acquire w))).
Proof. open_world w. run_cases; constructor. Qed.

Lemma acquire_launches_interactive (w : world) :
  launches_interactive (snd (acquire w)) = falls_back w.
Proof. open_world w. unfold launches_interactive. settle. Qed.


Lemma interactive_in_acquisitions (l : list event) :
  existsb is_interactive (acquisitions l) = existsb is_interactive l.
Proof.
  induction l as [| e l IH]; [reflexivity |]. unfold acquisitions in *. cbn.
  destruct (is_silent e) eqn:S, (is_interactive e) eqn:I; cbn;
    rewrite ?S, ?I, ?IH; reflexivity.
Qed.

Lemma silent_in_acquisitions (l : list event) :
  filter is_silent (acquisitions l) = filter is_silent l.
Proof.
  induction l as [| e l IH]; [reflexivity |]. unfold acquisitions in *. cbn.
  destruct (is_silent e) eqn:S, (is_interactive e) eqn:I; cbn;
    rewrite ?S, ?I, ?IH; reflexivity.
Qed.

Lemma interactive_filter_acquisitions (l : list event) :
  filter is_interactive (acquisitions l) = filter is_interactive l.
Proof.
  induction l as [| e l IH]; [reflexivity |]. unfold acquisitions in *. cbn.
  destruct (is_silent e) eqn:S, (is_interactive e) eqn:I; cbn;
    rewrite ?S, ?I, ?IH; reflexivity.
Qed.



Lemma acquisitions_nil_after (l pre post : list event) (e : event) :
  acquisitions l = [] -> l = pre ++ e :: post -> acquisitions post = [].
Proof.
  intros N ->. rewrite acquisitions_app in N.
  apply app_eq_nil in N as [_ N]. unfold acquisitions in *. cbn in N.
  destruct (is_silent e || is_interactive e); [discriminate | assumption].
Qed.


Lemma silent_reply_cached (w : world) (r : reply pyval) :
  silent_reply w = Some r ->
  exists accounts, cached_accounts w = Some accounts /\ truthy accounts = true.
Proof.
  unfold silent_reply, silent_account.
  destruct (the_app w); [| discriminate].
  destruct (cached_accounts w) as [accounts |]; [| discriminate].
  destruct (truthy accounts) eqn:T; [| discriminate].
  intros _. exists accounts. split; [reflexivity | exact T].
Qed.

Lemma acquire_silent_attempt (w : world) (account : pyval) :
  silent_account w = Some account ->
  exists f, In (Call (AcquireTokenSilent SCOPES account) f) (snd (acquire w)).
Proof.
  open_world w. intros H.
  run_cases; same_values; eexists; cbn; intuition eauto.
Qed.


Lemma shape_counts (l : list event) :
  attempts_shape l ->
  (length (filter is_silent l) <= 1)%nat /\
  (length (filter is_interactive l) <= 1)%nat.
Proof. intros S. destruct S; cbn; lia. Qed.


Lemma shape_silent_call (l : list event) (scopes account : pyval) (f : option fault) :
  attempts_shape l -> In (Call (AcquireTokenSilent scopes account) f) l ->
  scopes = SCOPES.
Proof. intros S H. destruct S; cbn in H; which_event; auto. Qed.

Lemma attempt_counts (w : world) :
  (length (filter is_silent (output w)) <= 1)%nat /\
  (length (filter is_interactive (output w)) <= 1)%nat.
Proof.
  pose proof (acquire_attempts_shape w) as S.
  rewrite <- acquisitions_output in S.
  destruct (shape_counts _ S) as [Si In].
  now rewrite silent_in_acquisitions in Si;
    rewrite interactive_filter_acquisitions in In.
Qed.

(** ** The claims *)


(** C7.  No retries: a run makes at most one silent and at most one
    interactive attempt; a library call that raises is never followed by an
    acquisition attempt; and a result without an access token ends the
    process with status 1, nothing being attempted after the acquisition
    that produced it. *)
Theorem no_retries (w : world) :
  (length (filter is_silent (output w)) <= 1)%nat /\
  (length (filter is_interactive (output w)) <= 1)%nat /\
  (forall pre c f post,
      output w = pre ++ Call c (Some f) :: post -> acquisitions post = []) /\
  (forall result,
      fst (acquire w) = Returns result ->
      contains "access_token" result <> Returns true ->
      status w = 1%Z /\
      exists rest, output w = snd (acquire w) ++ rest /\ acquisitions rest = []).
Proof.
  destruct (attempt_counts w) as [Si In].
  repeat split; try assumption.
  - intros pre c f post E.
    destruct (output_after_acquire w) as (rest & O & R).
    rewrite O in E. symmetry in E. apply app_eq_app in E as (l & [[P Q] | [P Q]]).
    + eapply acquisitions_nil_after; [exact R | exact Q].
    + destruct l as [| x l]; cbn in Q.
      * eapply acquisitions_nil_after with (pre := []); [exact R | symmetry; exact Q].
      * injection Q as <- ->.
        pose proof (fault_is_last_split _ _ _ _ (acquire_fault_is_last w) P eq_refl).
        subst l. exact R.
  - rewrite status_cases, (get_token_returns _ _ H). cbn [fst].
    destruct (report_without_token w result H0) as [-> | (e & ->)]; reflexivity.
  - apply output_after_acquire.
Qed.

(** *** Events of the two phases *)

Lemma silent_account_first (w : world) (account : pyval) :
  silent_account w = Some account ->
  exists accounts username,
    cached_accounts w = Some accounts /\ truthy accounts = true /\
    first accounts = Returns account /\
    subscript account "username" = Returns username.
Proof.
  unfold silent_account.
  destruct (cached_accounts w) as [accounts |]; [| discriminate].
  destruct (truthy accounts) eqn:T; [| discriminate].
  destruct (first accounts) as [a |] eqn:F; [| discriminate].
  destruct (subscript a "username") as [u |] eqn:U; [| discriminate].
  intros [= <-]. eauto 7.
Qed.

Lemma first_account_silent (w : world) (accounts account username : pyval) :
  cached_accounts w = Some accounts -> truthy accounts = true ->
  first accounts = Returns account ->
  subscript account "username" = Returns username ->
  silent_account w = Some account.
Proof. unfold silent_account. now intros -> -> -> ->. Qed.

Lemma acquire_silent_call (w : world) (scopes account : pyval) (f : option fault) :
  In (Call (AcquireTokenSilent scopes account) f) (snd (acquire w)) ->
  silent_account w = Some account.
Proof. open_world w. intros H. settle. Qed.

Lemma acquire_found_line (w : world) (line : list fragment) :
  In (Print (Lit found_cached_account :: line)) (snd (acquire w)) ->
  exists account username,
    silent_account w = Some account /\
    subscript account "username" = Returns username /\ line = [Fmt username].
Proof.
  open_world w. intros H.
  run_cases; which_event; do 2 eexists; repeat split; eassumption.
Qed.

Lemma acquire_prints_username (w : world) (account username : pyval) :
  silent_account w = Some account ->
  subscript account "username" = Returns username ->
  In (Print [Lit found_cached_account; Fmt username]) (snd (acquire w)).
Proof.
  open_world w. intros H U.
  run_cases; same_values; cbn; intuition congruence.
Qed.

Lemma report_no_found_line (w : world) (result : pyval) (line : list fragment) :
  ~ In (Print (Lit found_cached_account :: line)) (snd (report w result)).
Proof. open_world w. intros H. settle. Qed.

Lemma acquire_fixed_request (w : world) (e : event) :
  In e (snd (acquire w)) -> uses_fixed_request e.
Proof. open_world w. intros H. run_cases; which_event; cbn; auto. Qed.

Lemma report_fixed_request (w : world) (result : pyval) (e : event) :
  In e (snd (report w result)) -> uses_fixed_request e.
Proof.
  intros H. destruct e as [line | c f]; [exact I |].
  apply report_call_is_clipboard in H as (token & -> & _). exact I.
Qed.

(** C9.  The credential request is fixed: the client id and the tenant are
    the two string constants, the authority is built from the tenant, one
    scope is requested, and every library call of every run carries these
    values unchanged. *)
Theorem credential_request_is_fixed :
  CLIENT_ID = "14d82eec-204b-4c2f-b7e8-296a70dab67e" /\
  TENANT_ID = "common" /\
  authority = ("https://login.microsoftonline.com/" ++ TENANT_ID)%string /\
  (exists scope, SCOPES = VList [VStr scope]) /\
  forall w : world, Forall uses_fixed_request (output w).
Proof.
  repeat split; try reflexivity; [eexists; reflexivity |].
  intros w. apply Forall_forall. intros e H.
  apply output_in in H as [H | [(result & _ & H) | [-> | (x & ->)]]].
  - eapply acquire_fixed_request, H.
  - eapply report_fixed_request, H.
  - exact I.
  - exact I.
Qed.

(** C10.  When the account lookup returns one or more accounts, every
    silent attempt of the run is made with the first of them, there is at
    most one such attempt, the username printed is that of the first
    account, and a first account with a username is printed and tried. *)
Theorem silent_uses_first_account (w : world) (accounts : pyval) :
  cached_accounts w = Some accounts -> truthy accounts = true ->
  (forall scopes account f,
      In (Call (AcquireTokenSilent scopes account) f) (output w) ->
      first accounts = Returns account) /\
  (length (filter is_silent (output w)) <= 1)%nat /\
  (forall line,
      In (Print (Lit found_cached_account :: line)) (output w) ->
      exists account username,
        first accounts = Returns account /\
        subscript account "username" = Returns username /\
        line = [Fmt username]) /\
  (forall account username,
      first accounts = Returns account ->
      subscript account "username" = Returns username ->
      In (Print [Lit found_cached_account; Fmt username]) (output w) /\
      exists f, In (Call (AcquireTokenSilent SCOPES account) f) (output w)).
Proof.
  intros C T.
  assert (F : forall account, silent_account w = Some account ->
                              first accounts = Returns account).
  { intros account A.
    apply silent_account_first in A as (accounts' & u & C' & _ & A & _).
    congruence. }
  repeat split.
  - intros scopes account f H.
    apply output_in in H as [H | [(result & _ & H) | [H | (x & H)]]];
      try discriminate H.
    + apply F. eapply acquire_silent_call, H.
    + apply report_call_is_clipboard in H as (token & H & _). discriminate H.
  - apply attempt_counts.
  - intros line H.
    apply output_in in H as [H | [(result & _ & H) | [H | (x & H)]]];
      try discriminate H.
    + apply acquire_found_line in H as (account & username & A & U & L).
      exists account, username. auto.
    + now apply report_no_found_line in H.
  - destruct (output_after_acquire w) as (rest & -> & _).
    apply in_or_app. left. eapply acquire_prints_username; [| eassumption].
    eapply first_account_silent; eassumption.
  - destruct (output_after_acquire w) as (rest & -> & _).
    destruct (acquire_silent_attempt w account) as (f & S).
    { eapply first_account_silent; eassumption. }
    exists f. apply in_or_app. now left.
Qed.

Lemma silent_uses_first_account_witness :
  cached_accounts cached_world = Some (VList [alice; bob]) /\
  truthy (VList [alice; bob]) = true /\
  In (Print [Lit found_cached_account; Fmt (VStr "alice@contoso.com")])
     (output cached_world) /\
  exists f, In (Call (AcquireTokenSilent SCOPES alice) f) (output cached_world).
Proof.
  split; [reflexivity | split; [reflexivity |]].
  apply (silent_uses_first_account cached_world (VList [alice; bob]));
    reflexivity.
Defined.

(** *** The success branch, line by line *)

Lemma report_success_log (w : world) (d : list (string * pyval)) (token : pyval) :
  lookup "access_token" d = Some token ->
  account_is_dict d = true ->
  report w (VDict d) =
  match pyperclip_copy w token with
  | Gives _ =>
      (Returns token, success_header d ++ copied token ++ export_commands token)
  | Fails (Failure msg) =>
      (Returns token, success_header d ++ not_copied token msg ++ export_commands token)
  | Fails Interrupt =>
      (Raises KeyboardInterrupt,
       success_header d ++ [Call (ClipboardCopy token) (Some Interrupt)])
  end.
Proof.
  destruct w as [ctor copy]. cbn [pyperclip_copy].
  unfold account_is_dict, success_header, account_username, export_commands.
  intros T A.
  unfold report, copy_to_clipboard, print_export_commands,
    bind, try_except, invoke, lift, ret, print, sys_exit, contains, subscript, get.
  cbn [pyperclip_copy]. rewrite T.
  destruct (lookup "account" d) as [[| | | | account] |]; try discriminate A;
    try destruct (lookup "username" account);
    destruct (lookup "expires_in" d);
    destruct (copy token) as [[] | [| msg]]; reflexivity.
Qed.

Lemma export_lines_acquire (w : world) : export_lines (snd (acquire w)) = [].
Proof. open_world w. unfold export_lines. settle. Qed.

Lemma report_returns_exports (w : world) (result token : pyval) :
  fst (report w result) = Returns token ->
  export_lines (snd (report w result)) =
    [Print (export_statement PowerShell token); Print (export_statement BashZsh token)] /\
  skipn (length (snd (report w result)) - 6) (snd (report w result)) =
    export_commands token.
Proof.
  open_world w. open_values. unfold export_lines, export_commands, print_export_commands.
  intros H. run_cases; same_values; split; reflexivity.
Qed.

Lemma report_banner (w : world) (d : list (string * pyval)) (token : pyval) :
  lookup "access_token" d = Some token ->
  exists rest, snd (report w (VDict d)) = success_banner :: rest.
Proof.
  intros T. unfold report, contains, subscript. rewrite T.
  rewrite snd_bind. cbn [lift fst snd app]. rewrite snd_bind. cbn [lift fst snd app].
  rewrite snd_bind. cbn [print fst snd app]. eexists. reflexivity.
Qed.

Lemma get_token_in_output (w : world) (e : event) :
  In e (snd (get_token w)) -> In e (output w).
Proof.
  unfold output. rewrite main_cases.
  destruct (fst (get_token w)) as [token | [ | code | x]]; cbn [snd];
    rewrite ?in_app_iff; auto.
Qed.

Lemma output_of_success (w : world) (token : pyval) :
  fst (get_token w) = Returns token -> output w = snd (get_token w).
Proof. intros H. unfold output. rewrite main_cases, H. reflexivity. Qed.

Lemma output_of_failure (w : world) (result : pyval) (l : list event) :
  fst (acquire w) = Returns result ->
  report w result = (Raises (SystemExit 1), l) ->
  status w = 1%Z /\ output w = snd (acquire w) ++ l.
Proof.
  intros A R. unfold output. rewrite status_cases, main_cases.
  rewrite (get_token_returns _ _ A), R. split; reflexivity.
Qed.

Lemma acquire_with_clipboard (w : world) (copy : pyval -> reply unit) :
  acquire (with_clipboard w copy) = acquire w.
Proof. reflexivity. Qed.

Lemma report_clipboard_cases (w : world) (result : pyval) (msg : string) :
  let good := with_clipboard w (fun _ => Gives tt) in
  let bad := with_clipboard w (fun _ => Fails (Failure msg)) in
  fst (report bad result) = fst (report good result) /\
  forall token,
    fst (report good result) = Returns token ->
    exists d,
      snd (report good result) =
        success_header d ++ copied token ++ export_commands token /\
      snd (report bad result) =
        success_header d ++ not_copied token msg ++ export_commands token.
Proof.
  destruct result as [| z | s | l | d]; cbn zeta;
    try (split; [reflexivity | intros token H; discriminate H]).
  - split; [| intros token H; exfalso; revert H];
      unfold report, bind, lift, contains, subscript;
      destruct (String.index 0 "access_token" s); cbn; congruence.
  - split; [| intros token H; exfalso; revert H];
      unfold report, bind, lift, contains, subscript;
      destruct (existsb (is_str "access_token") l); cbn; congruence.
  - destruct (lookup "access_token" d) as [token |] eqn:T.
    + destruct (account_is_dict d) eqn:A.
      * rewrite !(report_success_log _ _ _ T A). cbn [pyperclip_copy with_clipboard fst snd].
        split; [reflexivity |]. intros token' [= <-]. exists d. split; reflexivity.
      * split; [| intros token' H; exfalso; revert H];
          unfold account_is_dict in A;
          unfold report, bind, lift, contains, subscript, get, print; rewrite T;
          destruct (lookup "account" d) as [[| | | |] |]; cbn; congruence.
    + rewrite !(report_failure _ _ T). split; [reflexivity | discriminate].
Qed.

(** C5.  The exit status of every run is 0 or 1: 0 exactly when
    [get_token] returns a token; 1 when the result carries no access token
    (authentication failure), when a library call is interrupted by the
    user (the cancellation message is then the last line), and when an
    [Exception] escapes [get_token] (its message is then the last line),
    which is what the failure of a library call other than the clipboard
    copy leads to. *)
Theorem exit_status_is_0_or_1 (w : world) :
  (status w = 0 \/ status w = 1)%Z /\
  (status w = 0%Z <-> exists token, fst (get_token w) = Returns token) /\
  (forall result,
      fst (acquire w) = Returns result ->
      contains "access_token" result = Returns false -> status w = 1%Z) /\
  (forall c,
      In (Call c (Some Interrupt)) (output w) ->
      status w = 1%Z /\ output w = snd (get_token w) ++ [cancelled]) /\
  (forall e,
      fst (get_token w) = Raises (Exception e) ->
      status w = 1%Z /\ output w = snd (get_token w) ++ [crashed e]) /\
  (forall c msg,
      In (Call c (Some (Failure msg))) (output w) ->
      (exists token, c = ClipboardCopy token) \/
      fst (get_token w) = Raises (Exception (LibraryError msg))).
Proof.
  pose proof (status_cases w) as S.
  pose proof (get_token_exit_code w) as X.
  repeat split.
  - destruct (fst (get_token w)) as [token | [ | code | e]]; auto.
    destruct (X code eq_refl) as [-> _]. auto.
  - intros Z. destruct (fst (get_token w)) as [token | [ | code | e]];
      [eauto | congruence | | congruence].
    destruct (X code eq_refl) as [-> _]. congruence.
  - intros (token & T). now rewrite T in S.
  - intros result A C. rewrite S, (get_token_returns _ _ A). cbn [fst].
    destruct (report_without_token w result) as [-> | (e & ->)];
      [congruence | reflexivity | reflexivity].
  - assert (K : fst (get_token w) = Raises KeyboardInterrupt).
    { apply output_in in H as [H | [(result & A & H) | [H | (x & H)]]];
        try discriminate H.
      - rewrite (get_token_raises _ _ (acquire_interrupted _ _ H)). reflexivity.
      - rewrite (get_token_returns _ _ A). eapply report_interrupted, H. }
    now rewrite S, K.
  - assert (K : fst (get_token w) = Raises KeyboardInterrupt).
    { apply output_in in H as [H | [(result & A & H) | [H | (x & H)]]];
        try discriminate H.
      - rewrite (get_token_raises _ _ (acquire_interrupted _ _ H)). reflexivity.
      - rewrite (get_token_returns _ _ A). eapply report_interrupted, H. }
    unfold output. now rewrite main_cases, K.
  - now rewrite S, H.
  - unfold output. now rewrite main_cases, H.
  - intros c msg H.
    apply output_in in H as [H | [(result & A & H) | [H | (x & H)]]];
      try discriminate H.
    + right. rewrite (get_token_raises _ _ (acquire_failed _ _ _ H)). reflexivity.
    + left. apply report_call_is_clipboard in H as (token & -> & _). eauto.
Qed.

(** C2 (amended).  For every result dictionary that contains
    ["access_token"], the run is classified as a success (the success
    banner is printed); [get_token] returns that token and the process
    exits with status 0 when the steps that follow run to their end: the
    ["account"] entry, if present, is a dictionary, and the clipboard copy
    is not interrupted by the user. *)
Theorem token_result_is_success (w : world) (d : list (string * pyval)) (token : pyval) :
  fst (acquire w) = Returns (VDict d) ->
  lookup "access_token" d = Some token ->
  In success_banner (output w) /\
  (account_is_dict d = true -> pyperclip_copy w token <> Fails Interrupt ->
   fst (get_token w) = Returns token /\ status w = 0%Z).
Proof.
  intros A T. split.
  - apply get_token_in_output. rewrite (get_token_returns _ _ A). cbn [snd].
    apply in_or_app. right.
    destruct (report_banner w d token T) as (rest & ->). now left.
  - intros D C. rewrite status_cases, (get_token_returns _ _ A). cbn [fst].
    now rewrite (report_success w d token T D C).
Qed.

Lemma token_result_is_success_witness :
  fst (acquire fresh_world) = Returns (VDict granted) /\
  lookup "access_token" granted = Some (VStr "eyJ0eXAi") /\
  fst (get_token fresh_world) = Returns (VStr "eyJ0eXAi") /\
  status fresh_world = 0%Z.
Proof.
  split; [reflexivity | split; [reflexivity |]].
  apply (token_result_is_success fresh_world granted (VStr "eyJ0eXAi"));
    [reflexivity | reflexivity | reflexivity | discriminate].
Defined.

(** C2 as stated fails: the library returns a result with an access token,
    the user interrupts the clipboard copy, and the process exits with
    status 1 without [get_token] returning. *)
Lemma token_result_interrupted_copy :
  fst (acquire interrupted_copy_world) = Returns (VDict granted) /\
  lookup "access_token" granted = Some (VStr "eyJ0eXAi") /\
  fst (get_token interrupted_copy_world) = Raises KeyboardInterrupt /\
  status interrupted_copy_world = 1%Z.
Proof. repeat split. Qed.

(** C3.  For every result dictionary that contains an ["error"] entry (a
    failure of the data model, which carries no ["access_token"]), the
    script prints the failure banner, the error and the error description
    (or its placeholder), and the process exits with status 1. *)
Theorem error_result_exits_1 (w : world) (d : list (string * pyval)) (error : pyval) :
  fst (acquire w) = Returns (VDict d) ->
  lookup "error" d = Some error ->
  lookup "access_token" d = None ->
  status w = 1%Z /\
  output w =
    snd (acquire w) ++
    [ Print [Lit (nl ++ "❌ Authentication failed!")];
      Print [Lit "   Error: "; Fmt error];
      Print [Lit "   Description: ";
             Fmt (or_default (lookup "error_description" d) (VStr "No description"))] ].
Proof.
  intros A E T.
  pose proof (output_of_failure w _ _ A (report_failure w d T)) as [S O].
  split; [exact S |]. rewrite O. unfold failure_report. now rewrite E.
Qed.

Lemma error_result_exits_1_witness :
  fst (acquire refused_world) = Returns (VDict denied) /\
  lookup "error" denied = Some (VStr "access_denied") /\
  lookup "access_token" denied = None /\
  status refused_world = 1%Z.
Proof.
  split; [reflexivity | split; [reflexivity | split; [reflexivity |]]].
  apply (error_result_exits_1 refused_world denied (VStr "access_denied"));
    reflexivity.
Defined.

(** Outside the data model: a dictionary holding both an ["error"] and an
    ["access_token"], which the library does not produce, would be
    classified by its token. *)
Example ambiguous_run :
  fst (acquire ambiguous_world) = Returns (VDict granted_with_error) /\
  lookup "error" granted_with_error = Some (VStr "access_denied") /\
  fst (get_token ambiguous_world) = Returns (VStr "eyJ0eXAi") /\
  status ambiguous_world = 0%Z.
Proof. repeat split. Qed.

(** C6 (amended).  For every result dictionary without
    ["access_token"], with or without an ["error"] entry, the process
    exits with status 1 after the three lines of the failure report; the
    placeholder "Unknown error" is printed when the result has no
    ["error"] entry, and the placeholder "No description" when it has no
    ["error_description"] entry. *)
Theorem missing_token_exits_1 (w : world) (d : list (string * pyval)) :
  fst (acquire w) = Returns (VDict d) ->
  lookup "access_token" d = None ->
  status w = 1%Z /\
  output w = snd (acquire w) ++ failure_report d /\
  (lookup "error" d = None ->
   In (Print [Lit "   Error: "; Fmt (VStr "Unknown error")]) (output w)) /\
  (lookup "error_description" d = None ->
   In (Print [Lit "   Description: "; Fmt (VStr "No description")]) (output w)).
Proof.
  intros A T.
  pose proof (output_of_failure w _ _ A (report_failure w d T)) as [S O].
  repeat split; try assumption; intros E; rewrite O; apply in_or_app; right;
    unfold failure_report; rewrite E; cbn; auto.
Qed.

Lemma missing_token_exits_1_witness :
  fst (acquire mute_world) = Returns (VDict silent_about_error) /\
  lookup "access_token" silent_about_error = None /\
  status mute_world = 1%Z /\
  In (Print [Lit "   Error: "; Fmt (VStr "Unknown error")]) (output mute_world) /\
  In (Print [Lit "   Description: "; Fmt (VStr "No description")]) (output mute_world).
Proof.
  split; [reflexivity | split; [reflexivity |]].
  destruct (missing_token_exits_1 mute_world silent_about_error eq_refl eq_refl)
    as (S & _ & E & D).
  split; [exact S | split; [exact (E eq_refl) | exact (D eq_refl)]].
Defined.

(** C6 as stated fails: a result with neither ["access_token"] nor
    ["error"] but with an ["error_description"] has that description
    printed, not the placeholder "No description". *)
Lemma missing_error_keeps_description :
  fst (acquire described_world) = Returns (VDict described_only) /\
  lookup "access_token" described_only = None /\
  lookup "error" described_only = None /\
  status described_world = 1%Z /\
  ~ In (Print [Lit "   Description: "; Fmt (VStr "No description")])
       (output described_world).
Proof.
  repeat split. cbn. intros H. which_event.
Qed.

(** Whatever the acquisition left, a clipboard that raises and one that
    works end [get_token] the same way, with the same exit status; when a
    token is returned the two logs differ in the clipboard step alone. *)
Lemma clipboard_failure_same_outcome (w : world) (msg : string) :
  let good := with_clipboard w (fun _ => Gives tt) in
  let bad := with_clipboard w (fun _ => Fails (Failure msg)) in
  fst (get_token bad) = fst (get_token good) /\
  status bad = status good /\
  forall token,
    fst (get_token good) = Returns token ->
    fst (get_token bad) = Returns token /\ status bad = 0%Z /\
    exists before after,
      output good = before ++ copied token ++ after /\
      output bad = before ++ not_copied token msg ++ after.
Proof.
  intros good bad.
  assert (G : fst (get_token bad) = fst (get_token good)).
  { destruct (fst (acquire w)) as [result | e] eqn:A.
    - rewrite (get_token_returns bad _ A), (get_token_returns good _ A).
      apply (report_clipboard_cases w result msg).
    - now rewrite (get_token_raises bad _ A), (get_token_raises good _ A). }
  split; [exact G | split].
  - now rewrite !status_cases, G.
  - intros token T. split; [congruence | split].
    + rewrite status_cases, G, T. reflexivity.
    + rewrite (output_of_success good token T).
      rewrite (output_of_success bad token) by congruence.
      destruct (fst (acquire w)) as [result | e] eqn:A.
      * rewrite (get_token_returns good _ A) in T |- *.
        rewrite (get_token_returns bad _ A). cbn [fst snd] in *.
        unfold good, bad in *.
        destruct (report_clipboard_cases w result msg) as [_ R].
        destruct (R token T) as (d & -> & ->).
        exists (snd (acquire w) ++ success_header d), (export_commands token).
        rewrite <- !app_assoc. split; reflexivity.
      * rewrite (get_token_raises good _ A) in T. discriminate T.
Qed.

(** C8.  On every successful run, whatever the clipboard did, the log
    ends with the export commands; its export statements are exactly two,
    the PowerShell one and the Bash/Zsh one, and each embeds the token
    that [get_token] returns: for a string token, the text between the
    double quotes is that string. *)
Theorem export_statements_printed (w : world) (token : pyval) :
  fst (get_token w) = Returns token ->
  export_lines (output w) =
    [Print (export_statement PowerShell token); Print (export_statement BashZsh token)] /\
  (exists before, output w = before ++ export_commands token) /\
  (forall s, token = VStr s ->
     render (export_statement PowerShell token) =
       Some ("   $env:GRAPH_TOKEN = " ++ dquote ++ s ++ dquote)%string /\
     render (export_statement BashZsh token) =
       Some ("   export GRAPH_TOKEN=" ++ dquote ++ s ++ dquote)%string).
Proof.
  intros T. rewrite (output_of_success w token T).
  destruct (fst (acquire w)) as [result | e] eqn:A.
  - rewrite (get_token_returns _ _ A) in T |- *. cbn [fst snd] in *.
    destruct (report_returns_exports w result token T) as [E K].
    repeat split.
    + unfold export_lines in *. rewrite filter_app.
      fold (export_lines (snd (acquire w))).
      now rewrite export_lines_acquire, E.
    + exists (snd (acquire w) ++
              firstn (length (snd (report w result)) - 6) (snd (report w result))).
      rewrite <- app_assoc, <- K. now rewrite firstn_skipn.
    + subst token. reflexivity.
    + subst token. reflexivity.
  - rewrite (get_token_raises _ _ A) in T. discriminate T.
Qed.

Lemma export_statements_printed_witness :
  (fst (get_token cached_world) = Returns (VStr "eyJ0eXAi") /\
   export_lines (output cached_world) =
     [Print (export_statement PowerShell (VStr "eyJ0eXAi"));
      Print (export_statement BashZsh (VStr "eyJ0eXAi"))]) /\
  (fst (get_token fresh_world) = Returns (VStr "eyJ0eXAi") /\
   export_lines (output fresh_world) =
     [Print (export_statement PowerShell (VStr "eyJ0eXAi"));
      Print (export_statement BashZsh (VStr "eyJ0eXAi"))]).
Proof.
  split; (split; [reflexivity |]).
  - apply (export_statements_printed cached_world (VStr "eyJ0eXAi")). reflexivity.
  - apply (export_statements_printed fresh_world (VStr "eyJ0eXAi")). reflexivity.
Defined.


(** ** Further properties of the script *)

(** *** The order of the library calls *)

Lemma calls_app (l1 l2 : list event) : calls (l1 ++ l2) = calls l1 ++ calls l2.
Proof.
  induction l1 as [| [line | c f] l1 IH]; cbn; [reflexivity | exact IH |].
  now rewrite IH.
Qed.

Lemma ascending_prefix (l1 l2 : list nat) :
  ascending (l1 ++ l2) = true -> ascending l1 = true.
Proof.
  induction l1 as [| n [| m l1] IH]; intros A; try reflexivity.
  cbn [app ascending] in A |- *. apply andb_true_iff in A as [A A'].
  rewrite A. cbn [andb]. apply IH. exact A'.
Qed.

(** The calls of the acquisition come in the order of the script and stop
    short of the clipboard. *)
Lemma acquire_calls_ascending (w : world) :
  ascending (map rank (calls (snd (acquire w))) ++ [4]) = true.
Proof. open_world w. settle. Qed.

Lemma acquire_first_call (w : world) :
  exists rest, calls (snd (acquire w)) = NewPublicClientApplication CLIENT_ID authority :: rest.
Proof. open_world w. run_cases; eexists; reflexivity. Qed.

Lemma report_calls (w : world) (result : pyval) :
  calls (snd (report w result)) = [] \/
  exists token, calls (snd (report w result)) = [ClipboardCopy token].
Proof. open_world w. run_cases; auto; right; eexists; reflexivity. Qed.

Lemma output_calls (w : world) :
  calls (output w) = calls (snd (acquire w)) \/
  exists token, calls (output w) = calls (snd (acquire w)) ++ [ClipboardCopy token].
Proof.
  unfold output. rewrite main_cases.
  destruct (fst (acquire w)) as [result | e] eqn:A.
  - rewrite (get_token_returns _ _ A). cbn [fst snd].
    destruct (fst (report w result)) as [token | [ | code | x]]; cbn [snd];
      rewrite ?calls_app; cbn [calls]; rewrite ?app_nil_r;
      (destruct (report_calls w result) as [-> | (t & ->)];
       [left; now rewrite app_nil_r | right; eauto]).
  - rewrite (get_token_raises _ _ A). cbn [fst snd].
    destruct e as [ | code | x]; cbn [snd]; rewrite ?calls_app; cbn [calls];
      rewrite ?app_nil_r; auto.
Qed.

(** X1.  In every run the library calls come in the order of the script,
    each at most once: constructor, account lookup, silent attempt,
    interactive attempt, clipboard copy; and the first call of every run is
    the constructor, with the client id and the authority of the script. *)
Theorem calls_follow_the_script (w : world) :
  ascending (map rank (calls (output w))) = true /\
  exists rest,
    calls (output w) = NewPublicClientApplication CLIENT_ID authority :: rest.
Proof.
  pose proof (acquire_calls_ascending w) as A.
  destruct (acquire_first_call w) as (rest & F).
  destruct (output_calls w) as [-> | (token & ->)].
  - split; [eapply ascending_prefix, A | eauto].
  - split; [rewrite map_app; exact A | rewrite F; cbn; eauto].
Qed.

(** *** Faults *)

Lemma quiet_after_fault_split (l pre post : list event) (c : call) (f : fault) :
  quiet_after_fault l = true -> l = pre ++ Call c (Some f) :: post ->
  calls post = [].
Proof.
  intros Q ->. induction pre as [| x pre IH]; cbn in Q.
  - now destruct (calls post).
  - destruct (is_fault x); [| auto].
    rewrite calls_app in Q. cbn in Q. now destruct (calls pre).
Qed.

Lemma quiet_after_fault_app (l1 l2 : list event) :
  existsb is_fault l1 = false ->
  quiet_after_fault (l1 ++ l2) = quiet_after_fault l2.
Proof.
  induction l1 as [| x l1 IH]; [reflexivity |]. cbn.
  destruct (is_fault x); [discriminate | exact IH].
Qed.

Lemma quiet_after_fault_line (l : list event) (line : list fragment) :
  quiet_after_fault l = true -> quiet_after_fault (l ++ [Print line]) = true.
Proof.
  induction l as [| x l IH]; [reflexivity |]. cbn.
  destruct (is_fault x); [| exact IH].
  rewrite calls_app. cbn. now rewrite app_nil_r.
Qed.

Lemma acquire_quiet_after_fault (w : world) :
  quiet_after_fault (snd (acquire w)) = true.
Proof. open_world w. settle. Qed.

Lemma report_quiet_after_fault (w : world) (result : pyval) :
  quiet_after_fault (snd (report w result)) = true.
Proof. open_world w. settle. Qed.

Lemma output_quiet_after_fault (w : world) : quiet_after_fault (output w) = true.
Proof.
  unfold output. rewrite main_cases.
  destruct (fst (acquire w)) as [result | e] eqn:A.
  - rewrite (get_token_returns _ _ A). cbn [fst snd].
    pose proof (acquire_fault_free w result A) as F.
    pose proof (report_quiet_after_fault w result) as R.
    destruct (fst (report w result)) as [token | [ | code | x]]; cbn [snd];
      rewrite <- ?app_assoc, quiet_after_fault_app by exact F;
      try exact R; now apply quiet_after_fault_line.
  - rewrite (get_token_raises _ _ A). cbn [fst snd].
    pose proof (acquire_quiet_after_fault w) as Q.
    destruct e as [ | code | x]; cbn [snd];
      try exact Q; now apply quiet_after_fault_line.
Qed.

(** X2.  A library call that raises is the last library call of the run,
    whichever call it is: what follows it in the log is printed lines. *)
Theorem nothing_called_after_a_fault (w : world) (pre post : list event)
  (c : call) (f : fault) :
  output w = pre ++ Call c (Some f) :: post -> calls post = [].
Proof. apply quiet_after_fault_split, output_quiet_after_fault. Qed.

Lemma nothing_called_after_a_fault_witness :
  output offline_world =
    firstn 6 (output offline_world) ++
    Call (AcquireTokenSilent SCOPES alice) (Some (Failure "connection refused")) ::
    [crashed (LibraryError "connection refused")] /\
  calls [crashed (LibraryError "connection refused")] = [].
Proof.
  split; [reflexivity |].
  apply (nothing_called_after_a_fault offline_world
           (firstn 6 (output offline_world)) _
           (AcquireTokenSilent SCOPES alice) (Failure "connection refused")).
  reflexivity.
Defined.

(** *** The clipboard *)

Lemma acquire_no_clipboard (w : world) (text : pyval) (f : option fault) :
  ~ In (Call (ClipboardCopy text) f) (snd (acquire w)).
Proof. open_world w. intros H. settle. Qed.

Lemma subscript_dict (result value : pyval) (k : string) :
  subscript result k = Returns value ->
  exists d, result = VDict d /\ lookup k d = Some value.
Proof.
  destruct result as [| | | | d]; try discriminate. cbn.
  destruct (lookup k d) as [v |] eqn:L; [| discriminate].
  intros [= <-]. eauto.
Qed.

(** X4.  The clipboard only ever receives the access token of the result:
    a clipboard call in the log means that the acquisition left a
    dictionary, that the text copied is its ["access_token"] entry, and
    that the success banner was printed. *)
Theorem clipboard_gets_the_token (w : world) (text : pyval) (f : option fault) :
  In (Call (ClipboardCopy text) f) (output w) ->
  exists d,
    fst (acquire w) = Returns (VDict d) /\
    lookup "access_token" d = Some text /\
    In success_banner (output w).
Proof.
  intros H.
  apply output_in in H as [H | [(result & A & H) | [H | (x & H)]]];
    try discriminate H.
  - now apply acquire_no_clipboard in H.
  - apply report_call_is_clipboard in H as (token & [= <-] & S).
    apply subscript_dict in S as (d & -> & T).
    exists d. repeat split; try assumption.
    apply get_token_in_output. rewrite (get_token_returns _ _ A). cbn [snd].
    apply in_or_app. right.
    destruct (report_banner w d text T) as (rest & ->). now left.
Qed.

Lemma clipboard_gets_the_token_witness :
  In (Call (ClipboardCopy (VStr "eyJ0eXAi")) (Some (Failure "no clipboard mechanism")))
     (output fresh_world) /\
  exists d,
    fst (acquire fresh_world) = Returns (VDict d) /\
    lookup "access_token" d = Some (VStr "eyJ0eXAi") /\
    In success_banner (output fresh_world).
Proof.
  assert (H : In (Call (ClipboardCopy (VStr "eyJ0eXAi"))
                       (Some (Failure "no clipboard mechanism")))
                 (output fresh_world)).
  { cbn. repeat (try (left; reflexivity); right). }
  split; [exact H |].
  exact (clipboard_gets_the_token fresh_world _ _ H).
Defined.

(** *** What a failed run does not print, and what only a failing clipboard prints *)

Lemma report_in_output (w : world) (result : pyval) (e : event) :
  fst (acquire w) = Returns result -> In e (snd (report w result)) -> In e (output w).
Proof.
  intros A H. apply get_token_in_output. rewrite (get_token_returns _ _ A).
  cbn [snd]. apply in_or_app. now right.
Qed.

Lemma export_lines_app (l1 l2 : list event) :
  export_lines (l1 ++ l2) = export_lines l1 ++ export_lines l2.
Proof. apply filter_app. Qed.

Lemma report_raises_no_exports (w : world) (result : pyval) (e : exn) :
  fst (report w result) = Raises e -> export_lines (snd (report w result)) = [].
Proof. open_world w. unfold export_lines. intros H. settle. Qed.

(** X5.  The export statements are printed on successful runs only: the
    log of a run holds no export statement exactly when the process exits
    with status 1. *)
Theorem exports_only_on_success (w : world) :
  export_lines (output w) = [] <-> status w = 1%Z.
Proof.
  rewrite status_cases. unfold output. rewrite main_cases.
  pose proof (export_lines_acquire w) as EA.
  destruct (fst (acquire w)) as [result | e] eqn:A.
  - rewrite (get_token_returns _ _ A). cbn [fst snd].
    destruct (fst (report w result)) as [token | [ | code | x]] eqn:R; cbn [snd];
      rewrite ?export_lines_app, EA; cbn [app].
    + destruct (report_returns_exports w result token R) as [-> _].
      split; discriminate.
    + rewrite (report_raises_no_exports _ _ _ R). split; reflexivity.
    + rewrite (report_raises_no_exports _ _ _ R).
      apply report_exit_code in R as [-> _]. split; reflexivity.
    + rewrite (report_raises_no_exports _ _ _ R). split; reflexivity.
  - rewrite (get_token_raises _ _ A). cbn [fst snd].
    destruct e as [ | code | x]; cbn [snd]; rewrite ?export_lines_app, EA;
      try (split; reflexivity).
    exfalso. exact (acquire_never_exits w code A).
Qed.

Lemma acquire_no_plaintext (w : world) (token : pyval) :
  ~ In (plaintext_token token) (snd (acquire w)).
Proof. open_world w. unfold plaintext_token. intros H. settle. Qed.

Lemma report_plaintext (w : world) (result token : pyval) :
  In (plaintext_token token) (snd (report w result)) ->
  exists msg, In (Call (ClipboardCopy token) (Some (Failure msg))) (snd (report w result)).
Proof.
  open_world w. unfold plaintext_token. intros H.
  run_cases; which_event; which_fault; cbn in *; try discriminate;
    eexists; cbn; repeat (try (left; reflexivity); right).
Qed.

Lemma report_failed_copy (w : world) (result token : pyval) (msg : string) :
  In (Call (ClipboardCopy token) (Some (Failure msg))) (snd (report w result)) ->
  In (plaintext_token token) (snd (report w result)).
Proof.
  open_world w. unfold plaintext_token. intros H.
  run_cases; which_event; which_fault; cbn in *; try discriminate;
    same_values; repeat (try (left; reflexivity); right).
Qed.

(** X6.  The token is printed on a line of its own (line 62) exactly when
    the clipboard copy raised an [Exception]: never when the copy worked,
    never when it was interrupted, never on a failed authentication. *)
Theorem plaintext_iff_clipboard_failed (w : world) (token : pyval) :
  In (plaintext_token token) (output w) <->
  exists msg, In (Call (ClipboardCopy token) (Some (Failure msg))) (output w).
Proof.
  split.
  - intros H.
    apply output_in in H as [H | [(result & A & H) | [H | (x & H)]]];
      try discriminate H.
    + now apply acquire_no_plaintext in H.
    + apply report_plaintext in H as (msg & H).
      exists msg. eapply report_in_output; eassumption.
  - intros (msg & H).
    apply output_in in H as [H | [(result & A & H) | [H | (x & H)]]];
      try discriminate H.
    + now apply acquire_no_clipboard in H.
    + eapply report_in_output; [exact A |]. eapply report_failed_copy, H.
Qed.

(** *** The cancellation message *)

Lemma acquire_no_cancelled (w : world) : ~ In cancelled (snd (acquire w)).
Proof. open_world w. unfold cancelled. intros H. settle. Qed.

Lemma report_no_cancelled (w : world) (result : pyval) :
  ~ In cancelled (snd (report w result)).
Proof. open_world w. unfold cancelled. intros H. settle. Qed.

Lemma get_token_no_cancelled (w : world) : ~ In cancelled (snd (get_token w)).
Proof.
  destruct (fst (acquire w)) as [result | e] eqn:A.
  - rewrite (get_token_returns _ _ A). cbn [snd]. rewrite in_app_iff.
    intros [H | H]; [eapply acquire_no_cancelled | eapply report_no_cancelled];
      exact H.
  - rewrite (get_token_raises _ _ A). apply acquire_no_cancelled.
Qed.

Lemma acquire_interrupt_source (w : world) :
  fst (acquire w) = Raises KeyboardInterrupt ->
  exists c, In (Call c (Some Interrupt)) (snd (acquire w)).
Proof.
  open_world w. open_values. intros H.
  run_cases; which_fault; cbn in *; try discriminate;
    eexists; cbn; repeat (try (left; reflexivity); right).
Qed.

Lemma report_interrupt_source (w : world) (result : pyval) :
  fst (report w result) = Raises KeyboardInterrupt ->
  exists c, In (Call c (Some Interrupt)) (snd (report w result)).
Proof.
  open_world w. open_values. intros H.
  run_cases; which_fault; cbn in *; try discriminate;
    eexists; cbn; repeat (try (left; reflexivity); right).
Qed.

Lemma interrupted_get_token (w : world) (c : call) :
  In (Call c (Some Interrupt)) (output w) ->
  fst (get_token w) = Raises KeyboardInterrupt.
Proof.
  intros H.
  apply output_in in H as [H | [(result & A & H) | [H | (x & H)]]];
    try discriminate H.
  - rewrite (get_token_raises _ _ (acquire_interrupted _ _ H)). reflexivity.
  - rewrite (get_token_returns _ _ A). eapply report_interrupted, H.
Qed.

(** X14.  The cancellation message is printed exactly when a library call
    was interrupted by the user: no other failure and no success prints
    it. *)
Theorem cancelled_iff_interrupted (w : world) :
  In cancelled (output w) <-> exists c, In (Call c (Some Interrupt)) (output w).
Proof.
  split.
  - pose proof (get_token_no_cancelled w) as N.
    unfold output. rewrite main_cases.
    destruct (fst (get_token w)) as [token | [ | code | x]] eqn:G; cbn [snd];
      rewrite ?in_app_iff; cbn [In]; intros H;
      repeat match goal with H : _ \/ _ |- _ => destruct H as [H | H] end;
      try contradiction; try discriminate H.
    assert (S : exists c, In (Call c (Some Interrupt)) (snd (get_token w))).
    { destruct (fst (acquire w)) as [result | e] eqn:A.
      - rewrite (get_token_returns _ _ A) in G |- *. cbn [fst snd] in *.
        destruct (report_interrupt_source w result G) as (c & S).
        exists c. apply in_or_app. now right.
      - rewrite (get_token_raises _ _ A) in G |- *. cbn [fst snd] in *.
        injection G as ->. now apply acquire_interrupt_source. }
    destruct S as (c & S). exists c. apply in_or_app. now left.
  - intros (c & H). apply interrupted_get_token in H.
    unfold output. rewrite main_cases, H. cbn [snd].
    apply in_or_app. right. now left.
Qed.

(** *** Results of an unexpected shape *)

Lemma output_of_crash (w : world) (result : pyval) (x : exc) (l : list event) :
  fst (acquire w) = Returns result ->
  report w result = (Raises (Exception x), l) ->
  status w = 1%Z /\ output w = snd (acquire w) ++ l ++ [crashed x].
Proof.
  intros A R. unfold output. rewrite status_cases, main_cases.
  rewrite (get_token_returns _ _ A), R. cbn [fst snd].
  split; [reflexivity | now rewrite app_assoc].
Qed.

(** X7.  A result with an access token whose ["account"] entry is not a
    dictionary is announced as a success and then fails: the success banner
    is the last line of [get_token], the error line follows, the clipboard
    is not touched, no export statement is printed, and the process exits
    with status 1. *)
Theorem odd_account_fails_after_banner (w : world) (d : list (string * pyval))
  (token account : pyval) :
  fst (acquire w) = Returns (VDict d) ->
  lookup "access_token" d = Some token ->
  lookup "account" d = Some account ->
  (forall entries, account <> VDict entries) ->
  status w = 1%Z /\
  output w =
    snd (acquire w) ++ [success_banner; crashed (AttributeError account "get")].
Proof.
  intros A T C N.
  apply (output_of_crash w (VDict d) _ [success_banner] A).
  unfold report, bind, lift, print, contains, subscript, get. rewrite T, C.
  destruct account; try reflexivity. now elim (N entries).
Qed.

Lemma odd_account_fails_after_banner_witness :
  fst (acquire odd_account_world) = Returns (VDict granted_for_alice) /\
  status odd_account_world = 1%Z /\
  output odd_account_world =
    snd (acquire odd_account_world) ++
    [success_banner; crashed (AttributeError (VStr "alice@contoso.com") "get")].
Proof.
  split; [reflexivity |].
  apply (odd_account_fails_after_banner odd_account_world granted_for_alice
           (VStr "eyJ0eXAi") (VStr "alice@contoso.com"));
    [reflexivity | reflexivity | reflexivity | discriminate].
Defined.

Lemma report_non_dict (w : world) (result : pyval) :
  (forall d, result <> VDict d) ->
  (report w result = (Raises (Exception (TypeError result)), [])) \/
  (report w result =
     (Raises (Exception (AttributeError result "get")),
      [Print [Lit (nl ++ "❌ Authentication failed!")]])).
Proof.
  intros N. destruct result as [| z | s | l | d]; [| | | | now elim (N d)];
    unfold report, bind, lift, print, contains, subscript, get.
  - now left.
  - now left.
  - destruct (String.index 0 "access_token" s); [left | right]; reflexivity.
  - destruct (existsb (is_str "access_token") l); [left | right]; reflexivity.
Qed.

(** X8.  A result that is not a dictionary never yields a token: the
    process exits with status 1 through the handler of [Exception], on a
    [TypeError] raised by the classification, or on an [AttributeError]
    raised by the failure report after its banner. *)
Theorem non_dict_result_exits_1 (w : world) (result : pyval) :
  fst (acquire w) = Returns result ->
  (forall d, result <> VDict d) ->
  status w = 1%Z /\
  (output w = snd (acquire w) ++ [crashed (TypeError result)] \/
   output w =
     snd (acquire w) ++
     [Print [Lit (nl ++ "❌ Authentication failed!")];
      crashed (AttributeError result "get")]).
Proof.
  intros A N. destruct (report_non_dict w result N) as [R | R];
    destruct (output_of_crash w result _ _ A R) as [S O]; auto.
Qed.

Lemma non_dict_result_exits_1_witness :
  fst (acquire null_result_world) = Returns VNone /\
  status null_result_world = 1%Z.
Proof.
  split; [reflexivity |].
  apply (non_dict_result_exits_1 null_result_world VNone);
    [reflexivity | discriminate].
Defined.

(** *** The cached account and the silent attempt, when they go wrong *)

Lemma output_launches_interactive (w : world) :
  launches_interactive (output w) = falls_back w.
Proof.
  unfold launches_interactive.
  rewrite <- interactive_in_acquisitions, acquisitions_output,
    interactive_in_acquisitions.
  apply acquire_launches_interactive.
Qed.

Lemma acquire_unusable_account (w : world) (accounts : pyval) :
  cached_accounts w = Some accounts -> truthy accounts = true ->
  silent_account w = None ->
  exists x, fst (acquire w) = Raises (Exception x).
Proof.
  open_world w. open_values. intros C T S.
  run_cases; same_values; try congruence; eexists; reflexivity.
Qed.

(** X9.  When the first cached account cannot be used (the account list
    is truthy but its first element, or the username of that element,
    cannot be read), nothing is acquired: no silent attempt, no
    interactive attempt, and the process exits with status 1 on the
    exception. *)
Theorem unusable_account_is_fatal (w : world) (accounts : pyval) :
  cached_accounts w = Some accounts -> truthy accounts = true ->
  silent_account w = None ->
  acquisitions (output w) = [] /\
  status w = 1%Z /\
  exists x, fst (get_token w) = Raises (Exception x).
Proof.
  intros C T S.
  destruct (acquire_unusable_account w accounts C T S) as (x & A).
  repeat split.
  - rewrite acquisitions_output, acquisitions_acquire.
    unfold falls_back, silent_reply. rewrite S, C, T.
    now destruct (the_app w).
  - now rewrite status_cases, (get_token_raises _ _ A).
  - exists x. now rewrite (get_token_raises _ _ A).
Qed.

Lemma unusable_account_is_fatal_witness :
  cached_accounts nameless_world =
    Some (VList [VDict [("home_account_id", VStr "0000")]]) /\
  silent_account nameless_world = None /\
  acquisitions (output nameless_world) = [] /\
  status nameless_world = 1%Z.
Proof.
  split; [reflexivity | split; [reflexivity |]].
  destruct (unusable_account_is_fatal nameless_world _ eq_refl eq_refl eq_refl)
    as (A & S & _).
  split; [exact A | exact S].
Defined.

Lemma silent_answer_no_fallback (w : world) (r : reply pyval) :
  silent_reply w = Some r ->
  falls_back w = match r with Gives result => negb (truthy result) | Fails _ => false end.
Proof.
  intros S. destruct (silent_reply_cached w r S) as (accounts & C & T).
  unfold falls_back. now rewrite C, T, S.
Qed.

Lemma acquire_silent_raises (w : world) (f : fault) :
  silent_reply w = Some (Fails f) -> fst (acquire w) = Raises (exn_of_fault f).
Proof. open_world w. intros H. settle. Qed.

(** X10.  A silent attempt that raises is fatal: there is no fallback to
    the browser, [get_token] raises what the library raised, and the
    process exits with status 1. *)
Theorem silent_exception_is_fatal (w : world) (f : fault) :
  silent_reply w = Some (Fails f) ->
  launches_interactive (output w) = false /\
  fst (get_token w) = Raises (exn_of_fault f) /\
  status w = 1%Z.
Proof.
  intros S. pose proof (acquire_silent_raises w f S) as A.
  repeat split.
  - now rewrite output_launches_interactive, (silent_answer_no_fallback w _ S).
  - now rewrite (get_token_raises _ _ A).
  - rewrite status_cases, (get_token_raises _ _ A). now destruct f.
Qed.

Lemma silent_exception_is_fatal_witness :
  silent_reply offline_world = Some (Fails (Failure "connection refused")) /\
  launches_interactive (output offline_world) = false /\
  status offline_world = 1%Z.
Proof.
  split; [reflexivity |].
  destruct (silent_exception_is_fatal offline_world (Failure "connection refused") eq_refl)
    as (L & _ & S).
  split; [exact L | exact S].
Defined.

(** X11.  A silent attempt that answers a truthy value without an access
    token (an error dictionary, say) is final: there is no fallback to the
    browser, that value is what gets classified, and the process exits
    with status 1. *)
Theorem silent_answer_without_token_is_final (w : world) (result : pyval) :
  silent_reply w = Some (Gives result) ->
  truthy result = true ->
  contains "access_token" result <> Returns true ->
  launches_interactive (output w) = false /\
  fst (acquire w) = Returns result /\
  status w = 1%Z.
Proof.
  intros S T C.
  assert (A : fst (acquire w) = Returns result) by (apply acquire_result; auto).
  repeat split; [| exact A |].
  - rewrite output_launches_interactive, (silent_answer_no_fallback w _ S).
    now rewrite T.
  - rewrite status_cases, (get_token_returns _ _ A). cbn [fst].
    destruct (report_without_token w result C) as [-> | (e & ->)]; reflexivity.
Qed.

Lemma silent_answer_without_token_is_final_witness :
  silent_reply stale_world = Some (Gives (VDict denied)) /\
  launches_interactive (output stale_world) = false /\
  status stale_world = 1%Z.
Proof.
  split; [reflexivity |].
  destruct (silent_answer_without_token_is_final stale_world (VDict denied))
    as (L & _ & S); [reflexivity | reflexivity | discriminate |].
  split; [exact L | exact S].
Defined.

(** *** Where the token comes from, and the two lines about it *)

(** X12.  The token [get_token] returns is the ["access_token"] entry of
    a dictionary the library answered: the answer of the silent attempt,
    in which case the browser was not opened, or else the answer of the
    interactive attempt. *)
Theorem token_comes_from_the_library (w : world) (token : pyval) :
  fst (get_token w) = Returns token ->
  exists d,
    lookup "access_token" d = Some token /\
    ((silent_reply w = Some (Gives (VDict d)) /\
      launches_interactive (output w) = false) \/
     (interactive_reply w = Some (Gives (VDict d)) /\
      launches_interactive (output w) = true)).
Proof.
  intros G. destruct (fst (acquire w)) as [result | e] eqn:A.
  - rewrite (get_token_returns _ _ A) in G. cbn [fst] in G.
    apply report_returns_token in G as (d & -> & T).
    exists d. split; [exact T |]. rewrite output_launches_interactive.
    apply acquire_result in A as [[S Tr] | [F I]].
    + left. split; [exact S |]. rewrite (silent_answer_no_fallback w _ S).
      now rewrite Tr.
    + right. auto.
  - rewrite (get_token_raises _ _ A) in G. discriminate G.
Qed.

Lemma token_comes_from_the_library_witness :
  fst (get_token cached_world) = Returns (VStr "eyJ0eXAi") /\
  exists d,
    lookup "access_token" d = Some (VStr "eyJ0eXAi") /\
    ((silent_reply cached_world = Some (Gives (VDict d)) /\
      launches_interactive (output cached_world) = false) \/
     (interactive_reply cached_world = Some (Gives (VDict d)) /\
      launches_interactive (output cached_world) = true)).
Proof.
  split; [reflexivity |].
  apply (token_comes_from_the_library cached_world (VStr "eyJ0eXAi")).
  reflexivity.
Defined.

Lemma report_returns_account (w : world) (d : list (string * pyval)) (token : pyval) :
  fst (report w (VDict d)) = Returns token -> account_is_dict d = true.
Proof.
  open_world w. open_values. unfold account_is_dict. intros H. run_cases.
Qed.

(** X13.  On every successful run the account line shows the username of
    the result's ["account"] entry, and "Unknown" when the result has no
    such entry or the entry has no username; the expiry line shows the
    ["expires_in"] entry, and "Unknown" when there is none. *)
Theorem account_and_expiry_lines (w : world) (token : pyval) :
  fst (get_token w) = Returns token ->
  exists d,
    fst (acquire w) = Returns (VDict d) /\
    In (account_line (account_username d)) (output w) /\
    In (expiry_line (or_default (lookup "expires_in" d) (VStr "Unknown"))) (output w) /\
    (lookup "account" d = None -> In (account_line (VStr "Unknown")) (output w)).
Proof.
  intros G. destruct (fst (acquire w)) as [result | e] eqn:A.
  - pose proof G as G'. rewrite (get_token_returns _ _ A) in G'. cbn [fst] in G'.
    destruct (report_returns_token _ _ _ G') as (d & -> & T).
    pose proof (report_returns_account _ _ _ G') as D.
    assert (H : forall e, In e (success_header d) -> In e (output w)).
    { intros e H. eapply report_in_output; [exact A |].
      rewrite (report_success_log w d token T D).
      destruct (pyperclip_copy w token) as [[] | [| msg]]; cbn [snd];
        apply in_or_app; now left. }
    exists d. repeat split.
    + apply H. cbn. auto.
    + apply H. cbn. auto.
    + intros N. apply H. unfold success_header, account_username.
      rewrite N. cbn. auto.
  - rewrite (get_token_raises _ _ A) in G. discriminate G.
Qed.

Lemma account_and_expiry_lines_witness :
  fst (get_token fresh_world) = Returns (VStr "eyJ0eXAi") /\
  In (account_line (VStr "Unknown")) (output fresh_world) /\
  In (expiry_line (VInt 3599)) (output fresh_world).
Proof.
  split; [reflexivity |].
  destruct (account_and_expiry_lines fresh_world (VStr "eyJ0eXAi") eq_refl)
    as (d & A & U & E & _).
  injection A as <-. split; [exact U | exact E].
Defined.

(** *** The two banners *)

Lemma acquire_no_banner (w : world) :
  ~ In success_banner (snd (acquire w)) /\ ~ In failure_banner (snd (acquire w)).
Proof.
  open_world w. unfold success_banner, failure_banner.
  split; intros H; settle.
Qed.

Lemma report_one_banner (w : world) (result : pyval) :
  In success_banner (snd (report w result)) ->
  In failure_banner (snd (report w result)) -> False.
Proof.
  open_world w. unfold success_banner, failure_banner. intros S F.
  run_cases; which_event.
Qed.

(** X15.  No run announces both a success and a failure: the success
    banner and the failure banner never occur in the same log. *)
Theorem banners_exclude_each_other (w : world) :
  ~ (In success_banner (output w) /\ In failure_banner (output w)).
Proof.
  destruct (acquire_no_banner w) as [NS NF].
  intros [S F].
  apply output_in in S as [S | [(result & A & S) | [S | (x & S)]]];
    try discriminate S; [contradiction |].
  apply output_in in F as [F | [(result' & A' & F) | [F | (x & F)]]];
    try discriminate F; [contradiction |].
  assert (result' = result) by congruence. subst result'.
  exact (report_one_banner w result S F).
Qed.

(** ** The fallback and the clipboard, read off the answers of the library *)

Example first_of_a_string :
  first (VStr "été") = Returns (VStr "é") /\ first (VStr "abc") = Returns (VStr "a").
Proof. split; reflexivity. Qed.





(** C4.  On every successful authentication result (a dictionary with an
    access token, its account entry being absent or a dictionary), a
    clipboard copy that raises changes nothing to the classification: the
    script warns, prints the token in plaintext, goes on to the export
    commands, returns the token and exits with status 0, exactly as with a
    working clipboard; the two logs differ in the clipboard step alone,
    the warning and the plaintext token standing where the working
    clipboard reports the copy. *)
Theorem clipboard_failure_keeps_classification (w : world)
  (d : list (string * pyval)) (token : pyval) (msg : string) :
  fst (acquire w) = Returns (VDict d) ->
  lookup "access_token" d = Some token ->
  account_is_dict d = true ->
  let good := with_clipboard w (fun _ => Gives tt) in
  let bad := with_clipboard w (fun _ => Fails (Failure msg)) in
  fst (get_token bad) = Returns token /\ status bad = 0%Z /\
  fst (get_token good) = Returns token /\ status good = 0%Z /\
  output bad =
    snd (acquire w) ++ success_header d ++ not_copied token msg ++ export_commands token /\
  output good =
    snd (acquire w) ++ success_header d ++ copied token ++ export_commands token.
Proof.
  intros A T D good bad.
  assert (B : get_token bad =
              (Returns token,
               snd (acquire w) ++
               success_header d ++ not_copied token msg ++ export_commands token)).
  { rewrite (get_token_returns bad _ A).
    now rewrite (report_success_log bad d token T D). }
  assert (G : get_token good =
              (Returns token,
               snd (acquire w) ++
               success_header d ++ copied token ++ export_commands token)).
  { rewrite (get_token_returns good _ A).
    now rewrite (report_success_log good d token T D). }
  repeat split.
  - now rewrite B.
  - now rewrite status_cases, B.
  - now rewrite G.
  - now rewrite status_cases, G.
  - rewrite (output_of_success bad token) by now rewrite B. now rewrite B.
  - rewrite (output_of_success good token) by now rewrite G. now rewrite G.
Qed.

Lemma clipboard_failure_keeps_classification_witness :
  fst (acquire fresh_world) = Returns (VDict granted) /\
  lookup "access_token" granted = Some (VStr "eyJ0eXAi") /\
  account_is_dict granted = true /\
  fst (get_token (granted_world (Fails (Failure "no clipboard mechanism")))) =
    Returns (VStr "eyJ0eXAi") /\
  status (granted_world (Fails (Failure "no clipboard mechanism"))) = 0%Z.
Proof.
  split; [reflexivity | split; [reflexivity | split; [reflexivity |]]].
  destruct (clipboard_failure_keeps_classification fresh_world granted
              (VStr "eyJ0eXAi") "no clipboard mechanism" eq_refl eq_refl eq_refl)
    as (R & S & _).
  split; [exact R | exact S].
Defined.
